(** * LearnUs toolkit: catalog reconciliation, catalog cache and job registry

    A shallow embedding of the job orchestration core of [src/web/app.py]:
    - [PyStr]     : the Python [str] operations the reconciler relies on;
    - [Reconcile] : merging a course's flat lecture list into its sections
                    ([fetch_all_courses], [refresh_course]);
    - [Cache]     : the one-hour catalog cache of [fetch_all_courses];
    - [Jobs]      : the task registry, its control endpoints and the batch
                    download worker ([download_lectures] / [download_task]). *)

From stdpp Require Import gmap strings list.
From Stdlib Require Import ZArith Lia Permutation.
From Stdlib Require Ascii String DecimalString.

Local Open Scope Z_scope.

(* ===================================================================== *)
(** ** Python strings *)
(* ===================================================================== *)

Module PyStr.

(** A Python [str] is a sequence of Unicode code points. *)
Definition codepoint : Type := Z.
Definition pystr : Type := list codepoint.

#[global] Typeclasses Transparent codepoint pystr.

(** ASCII literals, for writing the constants of the source. *)
Definition py (s : string) : pystr :=
  List.map (fun a => Z.of_nat (Ascii.nat_of_ascii a)) (String.list_ascii_of_string s).

(** [s.startswith(p)] *)
Fixpoint startswith (p s : pystr) : bool :=
  match p, s with
  | [], _ => true
  | _ :: _, [] => false
  | a :: p', b :: s' => if Z.eqb a b then startswith p' s' else false
  end.

(** [p in s] for strings: [p] occurs as a contiguous run of [s]. *)
Fixpoint contains (p s : pystr) : bool :=
  if startswith p s then true
  else match s with
       | [] => false
       | _ :: s' => contains p s'
       end.

(** [s.replace(old, '')] for a non-empty [old]: occurrences are found left to
    right and do not overlap; [skip] counts the code points of the current
    occurrence that are still to be dropped. *)
Fixpoint replace_del_aux (old : pystr) (skip : nat) (s : pystr) : pystr :=
  match s with
  | [] => []
  | c :: t =>
      match skip with
      | S k => replace_del_aux old k t
      | O => if startswith old s
             then replace_del_aux old (Nat.pred (length old)) t
             else c :: replace_del_aux old O t
      end
  end.

Definition replace_del (old s : pystr) : pystr := replace_del_aux old O s.

(** [str.isspace] per code point: the characters [str.strip()] removes. *)
Definition isspace (c : codepoint) : bool :=
  ((9 <=? c) && (c <=? 13)) || ((28 <=? c) && (c <=? 32))
  || (c =? 133) || (c =? 160) || (c =? 5760)
  || ((8192 <=? c) && (c <=? 8202))
  || (c =? 8232) || (c =? 8233) || (c =? 8239) || (c =? 8287) || (c =? 12288).

Fixpoint lstrip (s : pystr) : pystr :=
  match s with
  | [] => []
  | c :: t => if isspace c then lstrip t else s
  end.

(** [s.strip()] *)
Definition strip (s : pystr) : pystr := rev (lstrip (rev (lstrip s))).

(** The tables of [str.isalnum] and [str.lower] restricted to ASCII and the
    Hangul syllables block (U+AC00..U+D7A3, letters without case); the
    reconciler itself is stated for arbitrary tables. *)
Definition ascii_hangul_isalnum (c : codepoint) : bool :=
  ((48 <=? c) && (c <=? 57)) || ((65 <=? c) && (c <=? 90))
  || ((97 <=? c) && (c <=? 122)) || ((44032 <=? c) && (c <=? 55203)).

Definition ascii_lower (s : pystr) : pystr :=
  List.map (fun c => if (65 <=? c) && (c <=? 90) then c + 32 else c) s.

Lemma startswith_nil (s : pystr) : startswith [] s = true.
Proof. by destruct s. Qed.

Lemma contains_nil (s : pystr) : contains [] s = true.
Proof. destruct s; simpl; reflexivity. Qed.

End PyStr.

Import PyStr.

(* ===================================================================== *)
(** ** Catalog reconciler *)
(* ===================================================================== *)

Module Reconcile.

(** [scraper.LectureInfo], without its [video_url] attribute, which the
    code modelled here never reads. The class defines no [__eq__], so
    [v in xs] and [xs.remove(v)] compare object identity; [oid] is that
    identity. *)
Record LectureInfo : Type := mkLecture {
  oid : nat;
  lecture_id : pystr;
  title : pystr;
  week : pystr;
  status : pystr;
  activity_url : pystr;
  course_name : pystr;
  course_id : pystr
}.

#[global] Instance LectureInfo_eq_dec : EqDecision LectureInfo.
Proof. solve_decision. Defined.

(** Entries of a raw section's ['materials'] and ['assignments'] lists; the
    reconciler passes them through untouched. *)
Record Material : Type := mkMaterial {
  m_name : pystr; m_url : pystr; m_type : pystr; m_extension : pystr
}.

Record Assignment : Type := mkAssignment { a_name : pystr; a_url : pystr }.

(** One element of [content['sections']] as [parse_course_content] builds it. *)
Record RawSection : Type := mkRaw {
  r_title : pystr;
  r_materials : list Material;
  r_assignments : list Assignment
}.

(** The dict appended to [sec_videos]. *)
Record Video : Type := mkVideo {
  v_id : pystr; v_title : pystr; v_week : pystr; v_status : pystr;
  v_activity_url : pystr; v_type : pystr
}.

(** One element of [course_sections]. *)
Record Section_ : Type := mkSection {
  s_title : pystr;
  s_videos : list Video;
  s_materials : list Material;
  s_assignments : list Assignment
}.

Definition video_of (v : LectureInfo) : Video :=
  {| v_id := lecture_id v; v_title := title v; v_week := week v;
     v_status := status v; v_activity_url := activity_url v;
     v_type := py "video" |}.

(** [v in xs] *)
Definition list_in (v : LectureInfo) (xs : list LectureInfo) : bool :=
  existsb (fun x => bool_decide (x = v)) xs.

(** [xs.remove(v)]: drops the first occurrence. *)
Fixpoint list_remove (v : LectureInfo) (xs : list LectureInfo) : list LectureInfo :=
  match xs with
  | [] => []
  | x :: t => if bool_decide (x = v) then t else x :: list_remove v t
  end.

Section Matching.

(** Python's Unicode tables behind [str.isalnum] and [str.lower]. *)
Variable isalnum : codepoint -> bool.
Variable lower : pystr -> pystr.

(** [def normalize(s): return ''.join(e for e in s if e.isalnum()).lower()] *)
Definition normalize (s : pystr) : pystr := lower (List.filter isalnum s).

(** The three tests of the inner loop, in source order. *)
Definition rule_exact (wk sec_title : pystr) : bool := contains wk sec_title.

Definition rule_normalized (wk sec_title : pystr) : bool :=
  contains (normalize wk) (normalize sec_title).

Definition rule_fallback (wk sec_title : pystr) : bool :=
  contains (strip (replace_del (py "week") (lower wk))) sec_title.

(** [if a or b: append  elif c: append] *)
Definition week_matches (wk sec_title : pystr) : bool :=
  if rule_exact wk sec_title || rule_normalized wk sec_title then true
  else if rule_fallback wk sec_title then true
  else false.

(** [found_videos] after the inner [for lecture in remaining_lectures] loop. *)
Definition find_videos (sec_title : pystr) (remaining : list LectureInfo)
  : list LectureInfo :=
  List.filter (fun l => week_matches (week l) sec_title) remaining.

(** [for v in found_videos: if v in remaining_lectures: remove; append] *)
Fixpoint take_found (found remaining : list LectureInfo) (sec_videos : list Video)
  : list LectureInfo * list Video :=
  match found with
  | [] => (remaining, sec_videos)
  | v :: found' =>
      if list_in v remaining
      then take_found found' (list_remove v remaining) (sec_videos ++ [video_of v])
      else take_found found' remaining sec_videos
  end.

(** [for section in sections_raw: ...] threading [remaining_lectures] and
    [course_sections]. *)
Fixpoint merge_sections (sections_raw : list RawSection)
    (remaining : list LectureInfo) (course_sections : list Section_)
  : list Section_ * list LectureInfo :=
  match sections_raw with
  | [] => (course_sections, remaining)
  | section :: rest =>
      let sec_title := r_title section in
      let found_videos := find_videos sec_title remaining in
      let '(remaining', sec_videos) := take_found found_videos remaining [] in
      merge_sections rest remaining'
        (course_sections ++
           [{| s_title := sec_title; s_videos := sec_videos;
               s_materials := r_materials section;
               s_assignments := r_assignments section |}])
  end.

Definition general_section : RawSection :=
  {| r_title := py "General"; r_materials := []; r_assignments := [] |}.

Definition other_videos (remaining : list LectureInfo) : Section_ :=
  {| s_title := py "Other Videos"; s_videos := List.map video_of remaining;
     s_materials := []; s_assignments := [] |}.

(** [if not sections_raw and lectures: sections_raw = [General]] *)
Definition effective_sections (sections_raw : list RawSection)
    (lectures : list LectureInfo) : list RawSection :=
  match sections_raw, lectures with
  | [], _ :: _ => [general_section]
  | _, _ => sections_raw
  end.

(** The merge block shared by [fetch_all_courses] and [refresh_course]:
    from [sections_raw] and [lectures] to [course_sections]. *)
Definition reconcile (sections_raw : list RawSection) (lectures : list LectureInfo)
  : list Section_ :=
  let sections_raw := effective_sections sections_raw lectures in
  let '(course_sections, remaining) := merge_sections sections_raw lectures [] in
  match remaining with
  | [] => course_sections
  | _ :: _ => course_sections ++ [other_videos remaining]
  end.

(** The lectures of [remaining] that none of the titles [ts] matches. *)
Definition unmatched_by (ts : list RawSection) (l : LectureInfo) : bool :=
  forallb (fun s => negb (week_matches (week l) (r_title s))) ts.

(** All video entries of a reconciled course, section after section. *)
Definition all_videos (course_sections : list Section_) : list Video :=
  concat (List.map s_videos course_sections).

(** A week label every section title matches: empty, or empty once it is
    lowercased, stripped of 'week' and trimmed. *)
Definition blank_week (wk : pystr) : Prop :=
  wk = [] \/ strip (replace_del (py "week") (lower wk)) = [].

(** *** Lists *)

Lemma list_in_spec (v : LectureInfo) (xs : list LectureInfo) :
  list_in v xs = true <-> In v xs.
Proof.
  unfold list_in. rewrite existsb_exists. split.
  - intros (x & Hx & Heq). apply bool_decide_eq_true in Heq. by subst.
  - intros Hin. exists v. split; [done|]. by apply bool_decide_eq_true.
Qed.

Lemma list_remove_middle (v : LectureInfo) (pre post : list LectureInfo) :
  ~ In v pre -> list_remove v (pre ++ v :: post) = pre ++ post.
Proof.
  induction pre as [|x pre IH]; simpl; intros Hnot.
  - by rewrite bool_decide_eq_true_2.
  - rewrite bool_decide_eq_false_2 by (intros ->; apply Hnot; by left).
    f_equal. apply IH. intros Hin. apply Hnot. by right.
Qed.

Lemma filter_filter_andb {A} (p q : A -> bool) (l : list A) :
  List.filter p (List.filter q l) = List.filter (fun x => q x && p x) l.
Proof.
  induction l as [|x l IH]; simpl; [done|].
  destruct (q x); simpl; [destruct (p x)|]; by rewrite ?IH.
Qed.

Lemma filter_split_perm {A} (p : A -> bool) (l : list A) :
  Permutation (List.filter p l ++ List.filter (fun x => negb (p x)) l) l.
Proof.
  induction l as [|x l IH]; simpl; [done|].
  destruct (p x); simpl.
  - by constructor.
  - rewrite <- Permutation_middle. by constructor.
Qed.

(** *** The removal loop computes a partition of the pool *)

Lemma take_found_filter (m : LectureInfo -> bool)
    (pool pre : list LectureInfo) (acc : list Video) :
  (forall x, In x pre -> m x = false) ->
  take_found (List.filter m pool) (pre ++ pool) acc
  = (pre ++ List.filter (fun x => negb (m x)) pool,
     acc ++ List.map video_of (List.filter m pool)).
Proof.
  revert pre acc. induction pool as [|x pool IH]; intros pre acc Hpre; simpl.
  - by rewrite !app_nil_r.
  - destruct (m x) eqn:Hm; simpl.
    + assert (Hnot : ~ In x pre).
      { intros Hin. apply Hpre in Hin. congruence. }
      assert (Hin : list_in x (pre ++ x :: pool) = true).
      { apply list_in_spec, in_or_app. right. by left. }
      rewrite Hin, (list_remove_middle _ _ _ Hnot), (IH pre _ Hpre).
      by rewrite <- app_assoc.
    + replace (pre ++ x :: pool) with ((pre ++ [x]) ++ pool)
        by (by rewrite <- app_assoc).
      rewrite IH.
      * by rewrite <- app_assoc.
      * intros y [Hy|Hy]%in_app_or; [by apply Hpre|].
        destruct Hy as [<-|[]]. done.
Qed.

Lemma take_found_section (sec_title : pystr) (remaining : list LectureInfo) :
  take_found (find_videos sec_title remaining) remaining []
  = (List.filter (fun l => negb (week_matches (week l) sec_title)) remaining,
     List.map video_of (find_videos sec_title remaining)).
Proof.
  unfold find_videos.
  apply (take_found_filter (fun l => week_matches (week l) sec_title) remaining [] []).
  intros x [].
Qed.

(** *** The section loop, section by section *)

(** What the loop appends for [sections_raw], given the pool it starts from. *)
Fixpoint assign (sections_raw : list RawSection) (remaining : list LectureInfo)
  : list Section_ :=
  match sections_raw with
  | [] => []
  | section :: rest =>
      {| s_title := r_title section;
         s_videos := List.map video_of (find_videos (r_title section) remaining);
         s_materials := r_materials section;
         s_assignments := r_assignments section |}
      :: assign rest
           (List.filter (fun l => negb (week_matches (week l) (r_title section)))
              remaining)
  end.

Lemma merge_sections_assign (sections_raw : list RawSection)
    (remaining : list LectureInfo) (acc : list Section_) :
  merge_sections sections_raw remaining acc
  = (acc ++ assign sections_raw remaining,
     List.filter (unmatched_by sections_raw) remaining).
Proof.
  revert remaining acc.
  induction sections_raw as [|section rest IH]; intros remaining acc; simpl.
  - rewrite app_nil_r. f_equal. induction remaining; simpl; congruence.
  - rewrite take_found_section, IH, <- app_assoc. simpl. f_equal.
    rewrite filter_filter_andb. done.
Qed.

Lemma reconcile_unfold (sections_raw : list RawSection) (lectures : list LectureInfo) :
  let secs := effective_sections sections_raw lectures in
  reconcile sections_raw lectures
  = assign secs lectures ++
    match List.filter (unmatched_by secs) lectures with
    | [] => []
    | _ :: _ => [other_videos (List.filter (unmatched_by secs) lectures)]
    end.
Proof.
  unfold reconcile. simpl. rewrite merge_sections_assign. simpl.
  destruct (List.filter _ lectures); [by rewrite app_nil_r | done].
Qed.

Lemma assign_length (secs : list RawSection) (pool : list LectureInfo) :
  length (assign secs pool) = length secs.
Proof. revert pool. induction secs; intros; simpl; [done|]. by rewrite IHsecs. Qed.

Lemma assign_titles (secs : list RawSection) (pool : list LectureInfo) :
  List.map s_title (assign secs pool) = List.map r_title secs.
Proof. revert pool. induction secs; intros; simpl; [done|]. by rewrite IHsecs. Qed.

(** First match wins: the [i]-th section receives the lectures its title
    matches and no earlier title does. *)
Lemma assign_lookup (secs pre : list RawSection) (lectures : list LectureInfo)
    (i : nat) (section : RawSection) :
  secs !! i = Some section ->
  assign secs (List.filter (unmatched_by pre) lectures) !! i
  = Some {| s_title := r_title section;
            s_videos := List.map video_of
              (List.filter (fun l => unmatched_by (pre ++ take i secs) l
                                     && week_matches (week l) (r_title section))
                 lectures);
            s_materials := r_materials section;
            s_assignments := r_assignments section |}.
Proof.
  revert pre i. induction secs as [|s rest IH]; intros pre i Hi; [done|].
  destruct i as [|i]; simpl in *.
  - inversion Hi; subst. unfold find_videos.
    rewrite filter_filter_andb, app_nil_r. done.
  - rewrite filter_filter_andb.
    rewrite (List.filter_ext _ (unmatched_by (pre ++ [s]))).
    + rewrite (IH (pre ++ [s]) i Hi). by rewrite <- app_assoc.
    + intros l. unfold unmatched_by. rewrite forallb_app. simpl.
      by rewrite andb_true_r.
Qed.

(** *** Every lecture lands in exactly one place *)

Lemma assign_perm (secs : list RawSection) (pool : list LectureInfo) :
  Permutation
    (all_videos (assign secs pool)
       ++ List.map video_of (List.filter (unmatched_by secs) pool))
    (List.map video_of pool).
Proof.
  revert pool. induction secs as [|s rest IH]; intros pool; simpl.
  - unfold all_videos. simpl.
    replace (List.filter _ pool) with pool; [done|].
    induction pool; simpl; congruence.
  - unfold all_videos in *. simpl. rewrite <- app_assoc.
    set (m := fun l => week_matches (week l) (r_title s)).
    etransitivity;
      [|apply (Permutation_map video_of), (filter_split_perm m pool)].
    rewrite List.map_app. apply Permutation_app_head.
    etransitivity; [|apply IH].
    apply Permutation_app_head. rewrite filter_filter_andb. done.
Qed.

Lemma assign_videos_from (secs : list RawSection) (pool : list LectureInfo)
    (sec : Section_) (v : Video) :
  In sec (assign secs pool) -> In v (s_videos sec) ->
  exists l, In l pool /\ v = video_of l.
Proof.
  revert pool. induction secs as [|s rest IH]; intros pool; simpl; [done|].
  intros [<-|Hsec] Hv.
  - simpl in Hv. apply in_map_iff in Hv as (l & <- & Hl).
    apply filter_In in Hl as [Hl _]. eauto.
  - destruct (IH _ Hsec Hv) as (l & Hl & ->).
    apply filter_In in Hl as [Hl _]. eauto.
Qed.

Lemma effective_sections_cons (s : RawSection) (rest : list RawSection)
    (lectures : list LectureInfo) :
  effective_sections (s :: rest) lectures = s :: rest.
Proof. by destruct lectures. Qed.

Lemma once_in_nodup {A} (f : A -> pystr) (xs : list A) (x : A) :
  NoDup (List.map f xs) -> In x xs ->
  length (List.filter (fun y => bool_decide (f y = f x)) xs) = 1%nat.
Proof.
  induction xs as [|y xs IH]; simpl; [done|].
  intros Hnd Hin. apply NoDup_cons in Hnd as [Hy Hnd].
  destruct Hin as [->|Hin].
  - rewrite bool_decide_eq_true_2 by done. simpl. f_equal.
    apply length_zero_iff_nil.
    destruct (List.filter _ xs) as [|z zs] eqn:Hf; [done|].
    assert (Hz : In z (List.filter (fun y => bool_decide (f y = f x)) xs))
      by (rewrite Hf; by left).
    apply filter_In in Hz as [Hz Heq]. apply bool_decide_eq_true in Heq.
    exfalso. apply Hy. rewrite <- Heq. apply list_elem_of_In, in_map, Hz.
  - rewrite bool_decide_eq_false_2; [by apply IH|].
    intros Heq. apply Hy. rewrite Heq. apply list_elem_of_In, in_map, Hin.
Qed.

(** Rule (c) with the week label taken as it stands, not lowercased: the
    wording "the week label with the literal word week stripped and trimmed
    appears in the section title". *)
Definition rule_fallback_as_worded (wk sec_title : pystr) : bool :=
  contains (strip (replace_del (py "week") wk)) sec_title.

(** C3. Reconciliation partitions the lecture list: the video lists of the
    output sections (the declared ones, or the synthetic 'General' one, then
    'Other Videos' when something is left) hold exactly the N lectures; and
    when the lecture ids are pairwise distinct, as [parse_lecture_list]
    numbers them, each id occurs exactly once. Without declared sections and
    with lectures, the first output section is 'General'. *)
Theorem reconcile_partitions_lectures
    (sections_raw : list RawSection) (lectures : list LectureInfo) :
  let out := reconcile sections_raw lectures in
  let secs := effective_sections sections_raw lectures in
  Permutation (all_videos out) (List.map video_of lectures)
  /\ length (all_videos out) = length lectures
  /\ List.map s_title out
     = List.map r_title secs ++
       match List.filter (unmatched_by secs) lectures with
       | [] => []
       | _ :: _ => [py "Other Videos"]
       end
  /\ (NoDup (List.map lecture_id lectures) ->
      NoDup (List.map v_id (all_videos out))
      /\ forall l, In l lectures ->
           length (List.filter (fun v => bool_decide (v_id v = lecture_id l))
                     (all_videos out)) = 1%nat)
  /\ (sections_raw = [] -> lectures <> [] ->
      exists videos rest,
        out = {| s_title := py "General"; s_videos := videos;
                 s_materials := []; s_assignments := [] |} :: rest).
Proof.
  intros out secs.
  assert (Hperm : Permutation (all_videos out) (List.map video_of lectures)).
  { subst out. rewrite reconcile_unfold. fold secs.
    etransitivity; [|apply (assign_perm secs lectures)].
    unfold all_videos. rewrite List.map_app, concat_app.
    apply Permutation_app_head.
    destruct (List.filter (unmatched_by secs) lectures); simpl; [done|].
    by rewrite app_nil_r. }
  split; [exact Hperm|].
  split; [by rewrite (Permutation_length Hperm), length_map|].
  split.
  { subst out. rewrite reconcile_unfold. fold secs. rewrite List.map_app. f_equal.
    - apply assign_titles.
    - by destruct (List.filter (unmatched_by secs) lectures). }
  split.
  - intros Hnd.
    assert (Hids : Permutation (List.map v_id (all_videos out))
                     (List.map lecture_id lectures)).
    { replace (List.map lecture_id lectures)
        with (List.map v_id (List.map video_of lectures))
        by (by rewrite List.map_map).
      by apply Permutation_map. }
    assert (Hnd' : NoDup (List.map v_id (all_videos out))).
    { apply NoDup_ListNoDup. eapply Permutation_NoDup;
        [symmetry; exact Hids | by apply NoDup_ListNoDup]. }
    split; [exact Hnd'|].
    intros l Hl.
    assert (Hv : In (video_of l) (all_videos out)).
    { eapply Permutation_in; [symmetry; exact Hperm | by apply in_map]. }
    exact (once_in_nodup v_id (all_videos out) (video_of l) Hnd' Hv).
  - intros -> Hne. subst out. rewrite reconcile_unfold.
    destruct lectures as [|l ls]; [done|]. simpl. eauto.
Qed.

(** C6, as the code has it. A lecture goes to the first declared section, in
    declared order, whose title its week label matches, where matching is
    (a) the label is a substring of the title, or (b) the same after both
    are reduced to lowercase alphanumerics, or (c) the LOWERCASED label with
    'week' removed and trimmed is a substring of the title as written; what no
    title matches goes to 'Other Videos'. *)
Theorem reconcile_first_match_wins
    (sections_raw : list RawSection) (lectures : list LectureInfo) :
  let out := reconcile sections_raw lectures in
  let secs := effective_sections sections_raw lectures in
  (forall wk t, week_matches wk t
                = rule_exact wk t || rule_normalized wk t || rule_fallback wk t)
  /\ (forall wk t, rule_fallback wk t
                   = contains (strip (replace_del (py "week") (lower wk))) t)
  /\ (forall i section, secs !! i = Some section ->
        out !! i
        = Some {| s_title := r_title section;
                  s_videos := List.map video_of
                    (List.filter
                       (fun l => unmatched_by (take i secs) l
                                 && week_matches (week l) (r_title section))
                       lectures);
                  s_materials := r_materials section;
                  s_assignments := r_assignments section |})
  /\ drop (length secs) out
     = match List.filter (unmatched_by secs) lectures with
       | [] => []
       | _ :: _ => [other_videos (List.filter (unmatched_by secs) lectures)]
       end.
Proof.
  intros out secs. split; [|split; [done|split]].
  - intros wk t. unfold week_matches.
    by destruct (rule_exact wk t), (rule_normalized wk t), (rule_fallback wk t).
  - intros i section Hi. subst out. rewrite reconcile_unfold. fold secs.
    rewrite lookup_app_l
      by (rewrite assign_length; by apply lookup_lt_Some in Hi).
    pose proof (assign_lookup secs [] lectures i section Hi) as H.
    simpl in H. rewrite <- H. f_equal. f_equal.
    clear. induction lectures as [|x xs IH]; simpl; [done|]. by rewrite <- IH.
  - subst out. rewrite reconcile_unfold. fold secs.
    rewrite drop_app_length'; [done|]. by rewrite assign_length.
Qed.

(** C10. With at least one declared section, a lecture whose week label is
    empty, or empty after lowercasing, removing 'week' and trimming, is put
    in the first declared section and in no later one, 'Other Videos'
    included. *)
Theorem blank_week_goes_to_first_section
    (section : RawSection) (rest : list RawSection)
    (lectures : list LectureInfo) (l : LectureInfo) :
  In l lectures -> blank_week (week l) ->
  exists first later,
    reconcile (section :: rest) lectures = first :: later
    /\ s_title first = r_title section
    /\ In (video_of l) (s_videos first)
    /\ forall sec, In sec later -> ~ In (video_of l) (s_videos sec).
Proof.
  intros Hl Hblank.
  assert (Hall : forall l' t, week l' = week l -> week_matches (week l') t = true).
  { intros l' t ->. unfold week_matches, rule_exact, rule_fallback.
    destruct Hblank as [-> | ->]; rewrite contains_nil.
    - done.
    - by destruct (_ || _). }
  rewrite reconcile_unfold, effective_sections_cons. simpl.
  eexists _, _. split; [reflexivity|]. split; [done|]. split.
  - simpl. apply in_map. apply filter_In. split; [done|]. by apply Hall.
  - intros sec Hsec Hv.
    assert (Hfrom : exists l', In l' lectures
                      /\ week_matches (week l') (r_title section) = false
                      /\ video_of l = video_of l').
    { apply in_app_or in Hsec as [Hsec|Hsec].
      - destruct (assign_videos_from _ _ _ _ Hsec Hv) as (l' & Hl' & Heq).
        apply filter_In in Hl' as [Hl' Hm]. apply negb_true_iff in Hm. eauto.
      - destruct (List.filter _ lectures) as [|r rs] eqn:Hf; [done|].
        destruct Hsec as [<-|[]].
        change (In (video_of l) (List.map video_of (r :: rs))) in Hv.
        apply in_map_iff in Hv as (l' & Heq & Hl').
        rewrite <- Hf in Hl'. apply filter_In in Hl' as [Hl' Hm].
        simpl in Hm. apply andb_true_iff in Hm as [Hm _].
        apply negb_true_iff in Hm. eauto. }
    destruct Hfrom as (l' & _ & Hm & Heq).
    rewrite Hall in Hm; [done|].
    by injection Heq.
Qed.

End Matching.

(** *** Worked inputs *)

Definition lec (n : nat) (id wk : pystr) : LectureInfo :=
  {| oid := n; lecture_id := id; title := py "Lecture"; week := wk;
     status := py "New"; activity_url := py "https://ys.learnus.org/v";
     course_name := py "Course"; course_id := py "7" |}.

Definition raw (t : pystr) : RawSection :=
  {| r_title := t; r_materials := []; r_assignments := [] |}.

(** U+C8FC and U+CC28, the two syllables of the week suffix. *)
Definition ju : codepoint := 51452.
Definition cha : codepoint := 52264.

Definition week1 : pystr := py "1" ++ [ju; cha].
Definition week2 : pystr := py "2" ++ [ju; cha].

Definition scenario_lectures : list LectureInfo :=
  [lec 0 (py "7_1") week1; lec 1 (py "7_2") week2; lec 2 (py "7_3") (py "Extra")].

Definition scenario_sections : list RawSection :=
  [raw (week1 ++ py ": Intro"); raw (week2 ++ py ": Data")].

Definition reconcile_ascii : list RawSection -> list LectureInfo -> list Section_ :=
  reconcile ascii_hangul_isalnum ascii_lower.

Lemma reconcile_partitions_lectures_witness :
  NoDup (List.map lecture_id scenario_lectures)
  /\ NoDup (List.map v_id (all_videos (reconcile_ascii [] scenario_lectures)))
  /\ exists videos rest,
       reconcile_ascii [] scenario_lectures
       = {| s_title := py "General"; s_videos := videos;
            s_materials := []; s_assignments := [] |} :: rest.
Proof.
  assert (Hnd : NoDup (List.map lecture_id scenario_lectures)).
  { apply (bool_decide_unpack _). vm_compute. exact I. }
  destruct (reconcile_partitions_lectures ascii_hangul_isalnum ascii_lower
              [] scenario_lectures) as (_ & _ & _ & Hids & Hgen).
  split; [exact Hnd|]. split.
  - exact (proj1 (Hids Hnd)).
  - apply Hgen; [reflexivity | discriminate].
Defined.

(** Scenario C: one lecture per declared section, 'Extra' in 'Other Videos'. *)
Example scenario_c :
  List.map (fun s => (s_title s, List.map v_id (s_videos s)))
    (reconcile_ascii scenario_sections scenario_lectures)
  = [ (week1 ++ py ": Intro", [py "7_1"]);
      (week2 ++ py ": Data", [py "7_2"]);
      (py "Other Videos", [py "7_3"]) ].
Proof. vm_compute. reflexivity. Qed.

Lemma reconcile_first_match_wins_witness :
  scenario_sections !! 1%nat = Some (raw (week2 ++ py ": Data"))
  /\ reconcile_ascii scenario_sections scenario_lectures !! 1%nat
     = Some {| s_title := week2 ++ py ": Data";
               s_videos := [video_of (lec 1 (py "7_2") week2)];
               s_materials := []; s_assignments := [] |}.
Proof.
  split; [reflexivity|].
  destruct (reconcile_first_match_wins ascii_hangul_isalnum ascii_lower
              scenario_sections scenario_lectures) as (_ & _ & Hsec & _).
  exact (Hsec 1%nat (raw (week2 ++ py ": Data")) eq_refl).
Defined.

(** The week label 'week A' against the section title 'A': with the label
    taken as written, removing 'week' and trimming leaves 'A', which the
    title contains; the code lowercases first, looks for 'a', and leaves the
    lecture to 'Other Videos'. *)
Lemma fallback_rule_lowercases_label :
  let l := lec 0 (py "7_1") (py "week A") in
  rule_fallback_as_worded (week l) (py "A") = true
  /\ week_matches ascii_hangul_isalnum ascii_lower (week l) (py "A") = false
  /\ reconcile_ascii [raw (py "A")] [l]
     = [ {| s_title := py "A"; s_videos := [];
            s_materials := []; s_assignments := [] |};
         other_videos [l] ].
Proof. vm_compute. repeat split. Qed.

Lemma blank_week_goes_to_first_section_witness :
  let l := lec 0 (py "7_1") (py " Week ") in
  exists first later,
    reconcile_ascii [raw (py "Intro"); raw (py "Data")]
      [lec 1 (py "7_2") (py "Data"); l] = first :: later
    /\ s_title first = py "Intro"
    /\ In (video_of l) (s_videos first)
    /\ forall sec, In sec later -> ~ In (video_of l) (s_videos sec).
Proof.
  intros l.
  apply (blank_week_goes_to_first_section ascii_hangul_isalnum ascii_lower
           (raw (py "Intro")) [raw (py "Data")]
           [lec 1 (py "7_2") (py "Data"); l] l).
  - simpl. right. left. reflexivity.
  - right. vm_compute. reflexivity.
Defined.

End Reconcile.

Import Reconcile.

(* ===================================================================== *)
(** ** Catalog cache of [fetch_all_courses] *)
(* ===================================================================== *)

Module Cache.

(** [scraper.CourseInfo] *)
Record CourseInfo : Type := mkCourse {
  ci_course_id : pystr;
  ci_course_name : pystr;
  ci_course_url : pystr;
  ci_year : pystr;
  ci_semester : pystr;
  ci_professor : pystr;
  ci_lectures : list LectureInfo
}.

(** One element of [courses_data]. *)
Record CourseData : Type := mkCourseData {
  cd_course_id : pystr;
  cd_course_name : pystr;
  cd_year : pystr;
  cd_semester : pystr;
  cd_professor : pystr;
  cd_url : pystr;
  cd_loaded : bool;
  cd_lecture_count : nat;
  cd_sections : list Section_
}.

(** One element of [available_semesters]. *)
Record SemesterEntry : Type := mkSemester {
  se_year : pystr; se_semester : pystr; se_course_count : nat
}.

(** What [parse_course_content] returns. *)
Record Content : Type := mkContent {
  ct_sections : list RawSection;
  ct_professor : option pystr
}.

(** [dict(auth_session.cookies)]: the caller's identity. *)
Abbreviation Cookies := (gmap (list Z) (list Z)).

(** The pickled snapshot in [courses_cache.pkl], with the file's mtime. *)
Record CacheFile : Type := mkCacheFile {
  c_mtime : Z;
  c_courses_data : list CourseData;
  c_lectures : list LectureInfo;
  c_courses_cache : list CourseInfo;
  c_auth_cookies : Cookies;
  c_timestamp : Z
}.

(** The module globals the handler reads and writes, and the cache file. *)
Record AppState : Type := mkApp {
  auth_session : option Cookies;
  courses_cache : list CourseInfo;
  lectures_cache : list LectureInfo;
  cache_file : option CacheFile
}.

(** Query parameters of [GET /api/courses]. *)
Record Request : Type := mkRequest {
  q_year : option pystr;
  q_semester : option pystr;
  q_discover : bool;
  q_force_refresh : bool
}.

(** Calls to the scraper, in the order the handler issues them. *)
Inductive Call : Type :=
| CallCourseList (year semester : pystr)
| CallCourseContent (course_id : pystr)
| CallLectureList (course_url : pystr).

(** The scraper, the clock and the file system as one request sees them.
    Clock readings are in seconds. *)
Record Env : Type := mkEnv {
  parse_course_list : pystr -> pystr -> list CourseInfo;
  parse_course_content : pystr -> Content;
  parse_lecture_list : pystr -> list LectureInfo;
  completion : list CourseInfo -> list CourseInfo;
  today_year : Z;
  today_month : Z;
  clock_check : Z;
  clock_save : Z;
  write_ok : bool
}.

(** The JSON answers of the handler. [r_from_cache] is the ['from_cache']
    key, which only the cached answer carries. *)
Inductive Response : Type :=
| Unauthorized
| ServerError
| Courses (courses : list CourseData) (total_courses : nat)
          (from_cache : bool) (available_semesters : option (list SemesterEntry)).

Definition TTL : Z := 3600.

(** [str(n)] for an integer. *)
Definition str_of_Z (n : Z) : pystr :=
  py (DecimalString.NilZero.string_of_int (Z.to_int n)).

(** [get_current_semester] *)
Definition get_current_semester (env : Env) : pystr * pystr :=
  let month := today_month env in
  let semester :=
    if (month =? 1) || (month =? 2) then py "21"
    else if (3 <=? month) && (month <=? 7) then py "10"
    else if month =? 8 then py "11"
    else py "20" in
  (str_of_Z (today_year env), semester).

(** Truthiness of an optional query string. *)
Definition given (s : option pystr) : option pystr :=
  match s with
  | Some (c :: t) => Some (c :: t)
  | _ => None
  end.

(** The years [range(current_year_val, current_year_val - 6, -1)]. *)
Definition discovery_years (env : Env) : list Z :=
  List.map (fun k => today_year env - Z.of_nat k) (seq 0 6).

Definition discovery_semesters : list pystr := [py "20"; py "11"; py "10"; py "21"].

(** One probe of the discovery loop. *)
Definition probe (env : Env)
    (acc : list CourseInfo * list SemesterEntry * list Call) (ys : pystr * pystr)
  : list CourseInfo * list SemesterEntry * list Call :=
  let '(all_courses, available_semesters, calls) := acc in
  let courses := parse_course_list env ys.1 ys.2 in
  let calls := calls ++ [CallCourseList ys.1 ys.2] in
  match courses with
  | [] => (all_courses, available_semesters, calls)
  | _ :: _ =>
      (all_courses ++ courses,
       available_semesters ++
         [{| se_year := ys.1; se_semester := ys.2; se_course_count := length courses |}],
       calls)
  end.

(** The course listing that opens the handler, in its three modes. *)
Definition list_courses (env : Env) (req : Request)
  : list CourseInfo * list SemesterEntry * list Call :=
  if q_discover req then
    fold_left (probe env)
      (flat_map (fun y => List.map (fun s => (str_of_Z y, s)) discovery_semesters)
         (discovery_years env))
      ([], [], [])
  else
    match given (q_year req), given (q_semester req) with
    | Some year, Some semester =>
        let courses := parse_course_list env year semester in
        (courses,
         [{| se_year := year; se_semester := semester;
             se_course_count := length courses |}],
         [CallCourseList year semester])
    | _, _ =>
        let '(current_year, current_sem) := get_current_semester env in
        (parse_course_list env current_year current_sem, [],
         [CallCourseList current_year current_sem])
    end.

(** The cache read: skipped on [force_refresh], a hit only for a snapshot
    younger than an hour that was stored under the caller's cookies. *)
Definition cache_get (env : Env) (req : Request) (st : AppState) (cookies : Cookies)
  : option CacheFile :=
  if q_force_refresh req then None
  else match cache_file st with
       | None => None
       | Some cached =>
           let cache_age := clock_check env - c_mtime cached in
           if cache_age <? TTL
           then if bool_decide (c_auth_cookies cached = cookies)
                then Some cached else None
           else None
       end.

(** The cache write at the end of a refresh; a failed write is reported and
    leaves the file as it was. *)
Definition cache_put (env : Env) (entry : CacheFile) (old : option CacheFile)
  : option CacheFile :=
  if write_ok env then Some entry else old.

Section Handler.

Variable isalnum : codepoint -> bool.
Variable lower : pystr -> pystr.

(** [parse_single_course] followed by the merge of its result. *)
Definition parse_single_course (env : Env) (course : CourseInfo)
  : CourseInfo * CourseData * list LectureInfo * list Call :=
  let content := parse_course_content env (ci_course_id course) in
  let professor :=
    match ct_professor content with
    | Some (c :: t) => c :: t
    | _ => ci_professor course
    end in
  let lectures := parse_lecture_list env (ci_course_url course) in
  let course' :=
    {| ci_course_id := ci_course_id course; ci_course_name := ci_course_name course;
       ci_course_url := ci_course_url course; ci_year := ci_year course;
       ci_semester := ci_semester course; ci_professor := professor;
       ci_lectures := lectures |} in
  (course',
   {| cd_course_id := ci_course_id course; cd_course_name := ci_course_name course;
      cd_year := ci_year course; cd_semester := ci_semester course;
      cd_professor := professor; cd_url := ci_course_url course;
      cd_loaded := true; cd_lecture_count := length lectures;
      cd_sections := reconcile isalnum lower (ct_sections content) lectures |},
   lectures,
   [CallCourseContent (ci_course_id course); CallLectureList (ci_course_url course)]).

(** The refresh: every listed course is parsed and merged (the merge block
    is read as the body of the [as_completed] loop); the results are gathered
    in completion order. *)
Definition parse_all (env : Env) (all_courses : list CourseInfo)
  : list CourseInfo * list CourseData * list LectureInfo * list Call :=
  let results := List.map (parse_single_course env) all_courses in
  let done := List.map (parse_single_course env) (completion env all_courses) in
  (List.map (fun r => r.1.1.1) results,
   List.map (fun r => r.1.1.2) done,
   flat_map (fun r => r.1.2) done,
   flat_map (fun r => r.2) results).

(** [GET /api/courses] *)
Definition fetch_all_courses (env : Env) (req : Request) (st : AppState)
  : Response * AppState * list Call :=
  match auth_session st with
  | None => (Unauthorized, st, [])
  | Some cookies =>
      let '(all_courses, available_semesters, calls) := list_courses env req in
      let available := if q_discover req then Some available_semesters else None in
      match cache_get env req st cookies with
      | Some cached =>
          let courses_data := c_courses_data cached in
          (Courses courses_data (length courses_data) true available,
           {| auth_session := auth_session st;
              courses_cache := c_courses_cache cached;
              lectures_cache := c_lectures cached;
              cache_file := cache_file st |},
           calls)
      | None =>
          match all_courses with
          | [] => (* ThreadPoolExecutor(max_workers=0) raises *)
              (ServerError, st, calls)
          | _ :: _ =>
              let '(courses, courses_data, all_lectures, calls') :=
                parse_all env all_courses in
              let entry :=
                {| c_mtime := clock_save env; c_courses_data := courses_data;
                   c_lectures := all_lectures; c_courses_cache := courses;
                   c_auth_cookies := cookies; c_timestamp := clock_save env |} in
              (Courses courses_data (length courses_data) false available,
               {| auth_session := auth_session st;
                  courses_cache := courses;
                  lectures_cache := all_lectures;
                  cache_file := cache_put env entry (cache_file st) |},
               calls ++ calls')
          end
      end
  end.



Definition payload (r : Response) : option (list CourseData) :=
  match r with
  | Courses courses _ _ _ => Some courses
  | _ => None
  end.


(** *** The listing only lists *)



(** *** The cache read *)






End Handler.

(** *** Worked inputs *)

Definition sample_cookies : Cookies := {[ py "MoodleSession" := py "abc" ]}.

Definition sample_course : CourseInfo :=
  {| ci_course_id := py "7"; ci_course_name := py "Course";
     ci_course_url := py "https://ys.learnus.org/course/view.php?id=7";
     ci_year := py "2025"; ci_semester := py "20"; ci_professor := [];
     ci_lectures := [] |}.

Definition sample_env (t_check t_save : Z) : Env :=
  {| parse_course_list := fun _ _ => [sample_course];
     parse_course_content :=
       fun _ => {| ct_sections := scenario_sections; ct_professor := None |};
     parse_lecture_list := fun _ => scenario_lectures;
     completion := fun cs => cs;
     today_year := 2025; today_month := 11;
     clock_check := t_check; clock_save := t_save; write_ok := true |}.

Definition plain_request : Request :=
  {| q_year := None; q_semester := None; q_discover := false;
     q_force_refresh := false |}.


Definition logged_in : AppState :=
  {| auth_session := Some sample_cookies; courses_cache := [];
     lectures_cache := []; cache_file := None |}.

Definition fetch_ascii : Env -> Request -> AppState -> Response * AppState * list Call :=
  fetch_all_courses ascii_hangul_isalnum ascii_lower.





End Cache.

(* ===================================================================== *)
(** ** Task registry, control endpoints and the batch download worker *)
(* ===================================================================== *)

Module Jobs.

Local Open Scope nat_scope.

(** The values of [task_status[task_id]['status']]:
    ['running'], ['completed'], ['error'], ['stopped'], ['cancelled']. *)
Inductive Status : Type := Running | Completed | Error | Stopped | Cancelled.

#[global] Instance Status_eq_dec : EqDecision Status.
Proof. solve_decision. Defined.

(** The lines appended to [task_status[task_id]['messages']]. *)
Inductive Msg : Type :=
| MsgNotAvailable                       (* Transcription and analysis are not available ... *)
| MsgStoppedByUser                      (* Download stopped by user *)
| MsgNotFound (lecture_id : pystr)      (* Lecture {id} not found *)
| MsgExtracting (title : pystr)         (* Extracting video URL for: {title} *)
| MsgNoUrl (title : pystr)              (* Failed to extract video URL for: {title} *)
| MsgDownloading (title : pystr)        (* Downloading: {title} *)
| MsgDownloaded (title : pystr)         (* Downloaded: {title} *)
| MsgDownloadFailed (title : pystr)     (* Failed to download: {title} *)
| MsgItemError (lecture_id e : pystr)   (* Error processing lecture {id}: {e} *)
| MsgAllCompleted                       (* All downloads completed! *)
| MsgTaskError (e : pystr)              (* Task error: {e} *)
| MsgPaused                             (* Task paused by user *)
| MsgResumed                            (* Task resumed by user *)
| MsgCancelled                          (* Task cancelled by user *)
| MsgMaterials (text : pystr).          (* the lines of the materials worker *)

(** A value of the ['items'] dict: [{'progress': p, 'status': s}]. *)
Record ItemEntry : Type := mkItem { i_progress : nat; i_status : pystr }.

(** One entry of [task_status]. A key the record was created without reads
    as its default ([False], [0], empty). *)
Record TaskRecord : Type := mkTask {
  status : Status;
  progress : nat;
  total : nat;
  completed : nat;
  failed : nat;
  messages : list Msg;
  paused : bool;
  stopped : bool;
  current_lecture_index : nat;
  items : gmap (list Z) ItemEntry
}.

Definition set_status (v : Status) (r : TaskRecord) : TaskRecord :=
  mkTask v (progress r) (total r) (completed r) (failed r) (messages r)
         (paused r) (stopped r) (current_lecture_index r) (items r).
Definition set_progress (v : nat) (r : TaskRecord) : TaskRecord :=
  mkTask (status r) v (total r) (completed r) (failed r) (messages r)
         (paused r) (stopped r) (current_lecture_index r) (items r).
Definition set_completed (v : nat) (r : TaskRecord) : TaskRecord :=
  mkTask (status r) (progress r) (total r) v (failed r) (messages r)
         (paused r) (stopped r) (current_lecture_index r) (items r).
Definition set_failed (v : nat) (r : TaskRecord) : TaskRecord :=
  mkTask (status r) (progress r) (total r) (completed r) v (messages r)
         (paused r) (stopped r) (current_lecture_index r) (items r).
Definition append_message (m : Msg) (r : TaskRecord) : TaskRecord :=
  mkTask (status r) (progress r) (total r) (completed r) (failed r) (messages r ++ [m])
         (paused r) (stopped r) (current_lecture_index r) (items r).
Definition set_paused (v : bool) (r : TaskRecord) : TaskRecord :=
  mkTask (status r) (progress r) (total r) (completed r) (failed r) (messages r)
         v (stopped r) (current_lecture_index r) (items r).
Definition set_stopped (v : bool) (r : TaskRecord) : TaskRecord :=
  mkTask (status r) (progress r) (total r) (completed r) (failed r) (messages r)
         (paused r) v (current_lecture_index r) (items r).
Definition set_current_lecture_index (v : nat) (r : TaskRecord) : TaskRecord :=
  mkTask (status r) (progress r) (total r) (completed r) (failed r) (messages r)
         (paused r) (stopped r) v (items r).

(** *** Control endpoints *)

Inductive HttpResult : Type :=
| Http200 (message : pystr)
| Http400 (message : pystr)
| Http404 (message : pystr).

Abbreviation Registry := (gmap (list Z) TaskRecord).

(** [POST /api/task/<task_id>/pause] *)
Definition pause_task (task_id : pystr) (task_status : Registry)
  : HttpResult * Registry :=
  match task_status !! task_id with
  | None => (Http404 (py "Task not found"), task_status)
  | Some r =>
      if bool_decide (status r <> Running)
      then (Http400 (py "Task is not running"), task_status)
      else (Http200 (py "Task paused"),
            <[task_id := append_message MsgPaused (set_paused true r)]> task_status)
  end.

(** [POST /api/task/<task_id>/resume] *)
Definition resume_task (task_id : pystr) (task_status : Registry)
  : HttpResult * Registry :=
  match task_status !! task_id with
  | None => (Http404 (py "Task not found"), task_status)
  | Some r =>
      if bool_decide (status r <> Running)
      then (Http400 (py "Task is not running"), task_status)
      else (Http200 (py "Task resumed"),
            <[task_id := append_message MsgResumed (set_paused false r)]> task_status)
  end.

(** [POST /api/task/<task_id>/cancel] *)
Definition cancel_task (task_id : pystr) (task_status : Registry)
  : HttpResult * Registry :=
  match task_status !! task_id with
  | None => (Http404 (py "Task not found"), task_status)
  | Some r =>
      (Http200 (py "Task cancelled"),
       <[task_id := append_message MsgCancelled
                      (set_status Cancelled (set_paused false (set_stopped true r)))]>
         task_status)
  end.

(** [GET /api/task/<task_id>] *)
Definition get_task_status (task_id : pystr) (task_status : Registry)
  : option TaskRecord := task_status !! task_id.

(** What an endpoint does to the record of one registered task. *)
Definition on_record (endpoint : pystr -> Registry -> HttpResult * Registry)
    (r : TaskRecord) : TaskRecord :=
  default r ((endpoint [] {[ [] := r ]}).2 !! ([] : list Z)).

(** *** The batch download job *)

(** Body of [POST /api/download]. *)
Record DownloadRequest : Type := mkDownload {
  lecture_ids : list pystr;
  transcribe_ids : list pystr;
  summarize_ids : list pystr;
  summarize_audio_only : bool;
  analyze_video : bool
}.

(** What the worker's collaborators do during one job. [percent k n] is the
    float expression [int(k / n * 100)]. *)
Record Collab : Type := mkCollab {
  lectures_cache : list LectureInfo;
  setup_error : option pystr;
  extract_video_url : LectureInfo -> option pystr;
  output_path_error : LectureInfo -> option pystr;
  download_video : pystr -> LectureInfo -> bool;
  percent : nat -> nat -> nat
}.

(** The record [download_lectures] registers; [None] is the 400 answer to
    an empty selection. *)
Definition new_task (req : DownloadRequest) : option TaskRecord :=
  match lecture_ids req with
  | [] => None
  | _ :: _ =>
      Some {| status := Running; progress := 0; total := length (lecture_ids req);
              completed := 0; failed := 0; messages := []; paused := false;
              stopped := false; current_lecture_index := 0; items := ∅ |}
  end.

(** The writes one loop iteration performs after its flag checks, in source
    order. [IncCompleted] and [IncFailed] act on the worker's local
    counters; the last three are the progress update at the end of the
    [try] block. *)
Inductive Op : Type :=
| SetIndex (idx : nat)
| Log (m : Msg)
| IncCompleted
| IncFailed
| SetProgress (idx : nat)
| PublishCompleted
| PublishFailed.

(** Truthiness of an optional string. *)
Definition truthy (s : option pystr) : option pystr :=
  match s with
  | Some (c :: t) => Some (c :: t)
  | _ => None
  end.

Definition item_script (co : Collab) (idx : nat) (id : pystr) : list Op :=
  SetIndex idx ::
  match List.find (fun l => bool_decide (lecture_id l = id)) (lectures_cache co) with
  | None => [Log (MsgNotFound id); IncFailed]
  | Some lecture =>
      Log (MsgExtracting (title lecture)) ::
      match truthy (extract_video_url co lecture) with
      | None => [Log (MsgNoUrl (title lecture)); IncFailed]
      | Some video_url =>
          match output_path_error co lecture with
          | Some e => [IncFailed; Log (MsgItemError id e)]
          | None =>
              Log (MsgDownloading (title lecture)) ::
              (if download_video co video_url lecture
               then [IncCompleted; Log (MsgDownloaded (title lecture))]
               else [IncFailed; Log (MsgDownloadFailed (title lecture))])
              ++ [SetProgress idx; PublishCompleted; PublishFailed]
          end
      end
  end.

Arguments item_script : simpl never.

(** Where the worker thread stands. *)
Inductive Pc : Type :=
| PcStart                               (* entering [download_task] *)
| PcCheckStop (idx : nat)               (* loop head: first [stopped] test *)
| PcPauseWait (idx : nat)               (* the [while paused and not stopped] poll *)
| PcRecheckStop (idx : nat)             (* second [stopped] test *)
| PcItem (idx : nat) (ops : list Op)    (* inside the item's [try] block *)
| PcAfterLoop                           (* the statements after the [for] *)
| PcDone.

(** The shared record and the worker's private state. *)
Record Sys : Type := mkSys {
  rec : TaskRecord;
  pc : Pc;
  w_completed : nat;
  w_failed : nat
}.

Definition with_rec (f : TaskRecord -> TaskRecord) (s : Sys) : Sys :=
  mkSys (f (rec s)) (pc s) (w_completed s) (w_failed s).
Definition goto (p : Pc) (s : Sys) : Sys :=
  mkSys (rec s) p (w_completed s) (w_failed s).

Section Worker.

Variable req : DownloadRequest.
Variable co : Collab.

Definition apply_op (op : Op) (s : Sys) : Sys :=
  match op with
  | SetIndex idx => with_rec (set_current_lecture_index idx) s
  | Log m => with_rec (append_message m) s
  | IncCompleted => mkSys (rec s) (pc s) (S (w_completed s)) (w_failed s)
  | IncFailed => mkSys (rec s) (pc s) (w_completed s) (S (w_failed s))
  | SetProgress idx =>
      with_rec (set_progress (percent co (idx + 1) (length (lecture_ids req)))) s
  | PublishCompleted => with_rec (set_completed (w_completed s)) s
  | PublishFailed => with_rec (set_failed (w_failed s)) s
  end.

(** [if stopped: append('Download stopped by user'); status = 'stopped'; break] *)
Definition stop_and_break (s : Sys) : Sys :=
  goto PcAfterLoop (with_rec (fun r => set_status Stopped (append_message MsgStoppedByUser r)) s).

(** The web build refuses local processing. *)
Definition local_features_requested : bool :=
  match transcribe_ids req with
  | _ :: _ => true
  | [] => summarize_audio_only req || analyze_video req
  end.

(** One step of [download_task]; [None] once the thread has returned. *)
Definition download_task_step (s : Sys) : option Sys :=
  match pc s with
  | PcStart =>
      match setup_error co with
      | Some e =>
          Some (goto PcDone
                  (with_rec (fun r => append_message (MsgTaskError e) (set_status Error r)) s))
      | None =>
          if local_features_requested
          then Some (goto PcDone
                       (with_rec (fun r => append_message MsgNotAvailable
                                             (set_status Error r)) s))
          else Some (mkSys (rec s) (PcCheckStop 0) 0 0)
      end
  | PcCheckStop idx =>
      match lecture_ids req !! idx with
      | None => Some (goto PcAfterLoop s)
      | Some _ =>
          if stopped (rec s) then Some (stop_and_break s)
          else Some (goto (PcPauseWait idx) s)
      end
  | PcPauseWait idx =>
      if paused (rec s) && negb (stopped (rec s))
      then Some s
      else Some (goto (PcRecheckStop idx) s)
  | PcRecheckStop idx =>
      if stopped (rec s) then Some (stop_and_break s)
      else Some (goto (PcItem idx
                         (item_script co idx (default [] (lecture_ids req !! idx)))) s)
  | PcItem idx [] => Some (goto (PcCheckStop (S idx)) s)
  | PcItem idx (op :: ops) => Some (goto (PcItem idx ops) (apply_op op s))
  | PcAfterLoop =>
      Some (goto PcDone
              (with_rec (fun r => append_message MsgAllCompleted (set_status Completed r)) s))
  | PcDone => None
  end.

(** What can happen to a running job: the worker moves, or a client calls
    one of the control endpoints. *)
Inductive Event : Type := Tick | Pause | Resume | Cancel.

#[global] Instance Event_eq_dec : EqDecision Event.
Proof. solve_decision. Defined.

Definition do_event (e : Event) (s : Sys) : Sys :=
  match e with
  | Tick => default s (download_task_step s)
  | Pause => with_rec (on_record pause_task) s
  | Resume => with_rec (on_record resume_task) s
  | Cancel => with_rec (on_record cancel_task) s
  end.

Definition exec (schedule : list Event) (s : Sys) : Sys :=
  fold_left (fun s e => do_event e s) schedule s.

Definition start (r : TaskRecord) : Sys := mkSys r PcStart 0 0.

(** *** Counters *)

(** The published counts and the worker's local ones. *)
Record Counts : Type := mkCounts {
  pub_c : nat; pub_f : nat; loc_c : nat; loc_f : nat
}.

Definition counts_of (s : Sys) : Counts :=
  mkCounts (completed (rec s)) (failed (rec s)) (w_completed s) (w_failed s).



(** Items still to be counted by the rest of an iteration. *)
Definition incs (ops : list Op) : nat :=
  length (List.filter (fun op => match op with
                                 | IncCompleted | IncFailed => true
                                 | _ => false end) ops).



Definition script_at (idx : nat) : list Op :=
  item_script co idx (default [] (lecture_ids req !! idx)).




(** *** The control endpoints on one record *)

Lemma on_record_pause (r : TaskRecord) :
  on_record pause_task r
  = if bool_decide (status r <> Running) then r
    else append_message MsgPaused (set_paused true r).
Proof.
  unfold on_record, pause_task. rewrite lookup_singleton_eq.
  destruct (bool_decide (status r <> Running)); simpl.
  - by rewrite lookup_singleton_eq.
  - by rewrite lookup_insert_eq.
Qed.

Lemma on_record_resume (r : TaskRecord) :
  on_record resume_task r
  = if bool_decide (status r <> Running) then r
    else append_message MsgResumed (set_paused false r).
Proof.
  unfold on_record, resume_task. rewrite lookup_singleton_eq.
  destruct (bool_decide (status r <> Running)); simpl.
  - by rewrite lookup_singleton_eq.
  - by rewrite lookup_insert_eq.
Qed.

Lemma on_record_cancel (r : TaskRecord) :
  on_record cancel_task r
  = append_message MsgCancelled
      (set_status Cancelled (set_paused false (set_stopped true r))).
Proof.
  unfold on_record, cancel_task. rewrite lookup_singleton_eq. simpl.
  by rewrite lookup_insert_eq.
Qed.

(** A control request touches neither the counters nor the worker. *)
Lemma control_frame (e : Event) (s : Sys) :
  e <> Tick ->
  counts_of (do_event e s) = counts_of s
  /\ pc (do_event e s) = pc s
  /\ total (rec (do_event e s)) = total (rec s)
  /\ items (rec (do_event e s)) = items (rec s)
  /\ (stopped (rec s) = true -> stopped (rec (do_event e s)) = true)
  /\ (status (rec (do_event e s)) = status (rec s)
      \/ (e = Cancel /\ status (rec (do_event e s)) = Cancelled
                     /\ stopped (rec (do_event e s)) = true)).
Proof.
  intros He. destruct s as [r p wc wf].
  destruct e; [done| | |]; unfold do_event, counts_of, with_rec; simpl;
    rewrite ?on_record_pause, ?on_record_resume, ?on_record_cancel;
    try destruct (bool_decide (status r <> Running)); simpl; auto 10.
Qed.


Lemma apply_op_frame (op : Op) (s : Sys) :
  status (rec (apply_op op s)) = status (rec s)
  /\ total (rec (apply_op op s)) = total (rec s)
  /\ stopped (rec (apply_op op s)) = stopped (rec s)
  /\ paused (rec (apply_op op s)) = paused (rec s)
  /\ items (rec (apply_op op s)) = items (rec s)
  /\ pc (apply_op op s) = pc s.
Proof. by destruct op, s. Qed.








(** *** Pausing and cancelling *)

(** Items whose outcome the worker has counted. *)
Definition processed (s : Sys) : nat := w_completed s + w_failed s.
















Lemma tick_keeps_flags (s : Sys) :
  stopped (rec (do_event Tick s)) = stopped (rec s)
  /\ paused (rec (do_event Tick s)) = paused (rec s)
  /\ items (rec (do_event Tick s)) = items (rec s).
Proof.
  destruct s as [r p wc wf]. simpl. unfold download_task_step. simpl.
  destruct p as [|idx|idx|idx|idx [|op ops]| |]; simpl; try done.
  - destruct (setup_error co); [|destruct local_features_requested]; done.
  - destruct (lecture_ids req !! idx); [destruct (stopped r) eqn:Hs|];
      simpl; rewrite ?Hs; done.
  - by destruct (paused r && negb (stopped r)).
  - destruct (stopped r) eqn:Hs; simpl; rewrite ?Hs; done.
  - by destruct op.
Qed.



Lemma items_untouched (schedule : list Event) (s : Sys) :
  items (rec (exec schedule s)) = items (rec s).
Proof.
  revert s. induction schedule as [|e es IH]; intros s; [done|].
  simpl. rewrite IH. destruct (decide (e = Tick)) as [->|He].
  - by destruct (tick_keeps_flags s) as (_ & _ & ->).
  - by destruct (control_frame e s He) as (_ & _ & _ & -> & _).
Qed.

(** Whatever an item's outcome, its iteration runs to the next loop head
    and leaves the job's status alone: no item ends the job. *)
Lemma item_runs_to_next (idx : nat) (ops : list Op) (s : Sys) :
  pc s = PcItem idx ops ->
  let s' := exec (repeat Tick (S (length ops))) s in
  pc s' = PcCheckStop (S idx)
  /\ status (rec s') = status (rec s)
  /\ processed s' = processed s + incs ops.
Proof.
  revert s. induction ops as [|op ops IH]; intros s Hpc.
  - destruct s as [r p wc wf]. simpl in *. subst p. unfold download_task_step. simpl.
    unfold processed, incs. simpl. repeat split; lia.
  - change (exec (repeat Tick (S (length (op :: ops)))) s)
      with (exec (repeat Tick (S (length ops))) (do_event Tick s)).
    assert (Hstep : do_event Tick s = goto (PcItem idx ops) (apply_op op s)).
    { destruct s as [r p wc wf]. simpl in *. subst p. done. }
    rewrite Hstep.
    destruct (IH (goto (PcItem idx ops) (apply_op op s)) eq_refl) as (H1 & H2 & H3).
    destruct (apply_op_frame op s) as (Hst & _).
    split; [exact H1|]. split.
    + rewrite H2. exact Hst.
    + rewrite H3. unfold processed, incs. destruct op, s; simpl; lia.
Qed.

(** A failure outside the per-item [try] ends the job: status ['error'] and
    a last 'Task error' line. *)
Lemma setup_failure_ends_in_error (r : TaskRecord) (e : pystr) :
  setup_error co = Some e ->
  let s := do_event Tick (start r) in
  pc s = PcDone /\ status (rec s) = Error
  /\ messages (rec s) = messages r ++ [MsgTaskError e].
Proof. intros He. simpl. unfold download_task_step. simpl. by rewrite He. Qed.



End Worker.

(** *** Pause and resume on the registry *)

(** C9. [pause_task] and [resume_task] act only on a task whose status is
    ['running']: pause sets the pause flag, resume clears it, both log the
    request and leave the status at ['running'], so a paused task can still
    be resumed; on a task in any other status they answer 400 'Task is not
    running' and change nothing; on an unknown id they answer 404 and
    change nothing. *)
Theorem pause_resume_only_while_running (task_id : pystr) (task_status : Registry) :
  (forall r, task_status !! task_id = Some r -> status r = Running ->
     pause_task task_id task_status
     = (Http200 (py "Task paused"),
        <[task_id := append_message MsgPaused (set_paused true r)]> task_status)
     /\ resume_task task_id task_status
        = (Http200 (py "Task resumed"),
           <[task_id := append_message MsgResumed (set_paused false r)]> task_status)
     /\ paused (append_message MsgPaused (set_paused true r)) = true
     /\ paused (append_message MsgResumed (set_paused false r)) = false
     /\ status (append_message MsgPaused (set_paused true r)) = Running
     /\ (resume_task task_id (pause_task task_id task_status).2).1
        = Http200 (py "Task resumed"))
  /\ (forall r, task_status !! task_id = Some r -> status r <> Running ->
       pause_task task_id task_status
       = (Http400 (py "Task is not running"), task_status)
       /\ resume_task task_id task_status
          = (Http400 (py "Task is not running"), task_status))
  /\ (task_status !! task_id = None ->
       pause_task task_id task_status = (Http404 (py "Task not found"), task_status)
       /\ resume_task task_id task_status
          = (Http404 (py "Task not found"), task_status)).
Proof.
  split; [|split].
  - intros r Hr Hrun. unfold pause_task, resume_task. rewrite Hr.
    rewrite bool_decide_eq_false_2 by (intros H; by apply H).
    repeat split; auto. simpl. rewrite lookup_insert_eq. simpl.
    by rewrite bool_decide_eq_false_2 by (intros H; by apply H).
  - intros r Hr Hnot. unfold pause_task, resume_task. rewrite Hr.
    by rewrite bool_decide_eq_true_2.
  - intros Hnone. unfold pause_task, resume_task. by rewrite Hnone.
Qed.

(** *** Worked inputs *)

(** The statuses a poller sees before the schedule and after each event. *)
Fixpoint statuses (req : DownloadRequest) (co : Collab)
    (schedule : list Event) (s : Sys) : list Status :=
  status (rec s) ::
  match schedule with
  | [] => []
  | e :: es => statuses req co es (do_event req co e s)
  end.

Definition download_of (ids : list pystr) : DownloadRequest :=
  {| lecture_ids := ids; transcribe_ids := []; summarize_ids := [];
     summarize_audio_only := false; analyze_video := false |}.

(** Collaborators over the three lectures of the scenario; [fails] tells
    which downloads fail. The percentage is computed on integers here. *)
Definition collab (fails : LectureInfo -> bool) : Collab :=
  {| lectures_cache := scenario_lectures;
     setup_error := None;
     extract_video_url := fun _ => Some (py "https://cdn.example/v.mp4");
     output_path_error := fun _ => None;
     download_video := fun _ l => negb (fails l);
     percent := fun k n => k * 100 / n |}.

Definition all_good : Collab := collab (fun _ => false).
Definition first_fails : Collab :=
  collab (fun l => bool_decide (lecture_id l = py "7_1")).

Definition registered (req : DownloadRequest) : TaskRecord :=
  default (mkTask Error 0 0 0 0 [] false false 0 ∅) (new_task req).

Definition run (req : DownloadRequest) (co : Collab) (schedule : list Event) : Sys :=
  exec req co schedule (start (registered req)).

Definition one_lecture : DownloadRequest := download_of [py "7_1"].
Definition two_lectures : DownloadRequest := download_of [py "7_1"; py "7_2"].

(** A selection that also asks for transcription, which the web build
    refuses. *)
Definition with_transcription : DownloadRequest :=
  {| lecture_ids := [py "7_1"]; transcribe_ids := [py "7_1"]; summarize_ids := [];
     summarize_audio_only := false; analyze_video := false |}.


(** A job whose only lecture is not in the cache: the iteration counts the
    failure locally and leaves through [continue], so the published counts
    stay at zero although the job reads Completed. *)
Example skipped_item_is_not_published :
  let s := run (download_of [py "9_9"]) all_good (repeat Tick 10) in
  status (rec s) = Completed /\ pc s = PcDone /\ w_failed s = 1
  /\ completed (rec s) + failed (rec s) = 0 /\ total (rec s) = 1.
Proof. vm_compute. repeat split. Qed.


(** C2 on the code. One lecture; the client cancels before the worker has
    started, the worker takes its three steps, and the client cancels once
    more. The status a poller reads goes Running, Cancelled, Cancelled,
    Stopped, Completed, Cancelled: the statements after the loop overwrite
    the worker's own 'stopped', and the cancel endpoint overwrites
    'completed'. *)
Theorem cancelled_job_is_marked_completed :
  statuses one_lecture all_good [Cancel; Tick; Tick; Tick; Cancel]
    (start (registered one_lecture))
  = [Running; Cancelled; Cancelled; Stopped; Completed; Cancelled]
  /\ messages (rec (run one_lecture all_good [Cancel; Tick; Tick; Tick; Cancel]))
     = [MsgCancelled; MsgStoppedByUser; MsgAllCompleted; MsgCancelled]
  /\ (cancel_task (py "download_1")
        {[ py "download_1" := rec (run one_lecture all_good (repeat Tick 15)) ]}).1
     = Http200 (py "Task cancelled").
Proof. vm_compute. repeat split. Qed.

(** C8 on the code. Two lectures, the first download fails: the failure is
    logged and counted, the worker goes on to the second lecture and the
    job ends Completed with one completed and one failed; the per-item map
    is still empty. *)
Theorem failed_item_is_counted_but_not_marked :
  let s := run two_lectures first_fails (repeat Tick 27) in
  status (rec s) = Completed /\ completed (rec s) = 1 /\ failed (rec s) = 1
  /\ messages (rec s)
     = [MsgExtracting (py "Lecture"); MsgDownloading (py "Lecture");
        MsgDownloadFailed (py "Lecture");
        MsgExtracting (py "Lecture"); MsgDownloading (py "Lecture");
        MsgDownloaded (py "Lecture"); MsgAllCompleted]
  /\ items (rec s) = ∅.
Proof. vm_compute. repeat split. Qed.


Lemma pause_resume_only_while_running_witness :
  let r := registered one_lecture in
  let done := rec (run one_lecture all_good (repeat Tick 15)) in
  (pause_task (py "download_1") {[ py "download_1" := r ]}).1
  = Http200 (py "Task paused")
  /\ pause_task (py "download_1") {[ py "download_1" := done ]}
     = (Http400 (py "Task is not running"), {[ py "download_1" := done ]})
  /\ (pause_task (py "download_2") {[ py "download_1" := r ]}).1
     = Http404 (py "Task not found").
Proof.
  intros r done. split; [|split].
  - destruct (pause_resume_only_while_running (py "download_1")
                {[ py "download_1" := r ]}) as (Hrun & _ & _).
    destruct (Hrun r) as (-> & _); [by rewrite lookup_singleton_eq|reflexivity|].
    reflexivity.
  - destruct (pause_resume_only_while_running (py "download_1")
                {[ py "download_1" := done ]}) as (_ & Hnot & _).
    destruct (Hnot done) as (-> & _);
      [by rewrite lookup_singleton_eq|vm_compute; discriminate|].
    reflexivity.
  - destruct (pause_resume_only_while_running (py "download_2")
                {[ py "download_1" := r ]}) as (_ & _ & Hnone).
    destruct Hnone as (-> & _); [|reflexivity].
    apply lookup_singleton_ne. vm_compute. discriminate.
Defined.

(** *** The materials job *)










Section Materials.

(** [percent k n] is the float expression [int((k / n) * 100)]. *)
Variable percent : nat -> nat -> nat.









End Materials.



End Jobs.

(* ===================================================================== *)
(** ** File names and output paths ([utils.py], [downloader.py]) *)
(* ===================================================================== *)

Module Utils.

Local Open Scope Z_scope.

(** The character class of [invalid_chars] in [sanitize_filename]: the
    characters < > : double quote / backslash | ? * and the control
    characters 0 to 31. *)
Definition invalid_char (c : codepoint) : bool :=
  (c =? 60) || (c =? 62) || (c =? 58) || (c =? 34) || (c =? 47) || (c =? 92)
  || (c =? 124) || (c =? 63) || (c =? 42) || ((0 <=? c) && (c <=? 31)).

(** [re.sub(invalid_chars, '_', filename)] *)
Definition replace_invalid (s : pystr) : pystr :=
  List.map (fun c => if invalid_char c then 95 else c) s.

Fixpoint lstrip_chars (chars : list codepoint) (s : pystr) : pystr :=
  match s with
  | [] => []
  | c :: t => if existsb (Z.eqb c) chars then lstrip_chars chars t else s
  end.

(** [s.rstrip(chars)] *)
Definition rstrip_chars (chars : list codepoint) (s : pystr) : pystr :=
  rev (lstrip_chars chars (rev s)).

(** [re.sub(r'_+', '_', s)] *)
Fixpoint collapse_underscores (s : pystr) : pystr :=
  match s with
  | [] => []
  | c :: t =>
      if c =? 95
      then match t with
           | c' :: _ => if c' =? 95 then collapse_underscores t
                        else c :: collapse_underscores t
           | [] => [c]
           end
      else c :: collapse_underscores t
  end.

(** [['CON', 'PRN', 'AUX', 'NUL'] + COM1..COM9 + LPT1..LPT9] *)
Definition reserved_names : list pystr :=
  [py "CON"; py "PRN"; py "AUX"; py "NUL"]
  ++ List.map (fun i => py "COM" ++ Cache.str_of_Z (Z.of_nat i)) (seq 1 9)
  ++ List.map (fun i => py "LPT" ++ Cache.str_of_Z (Z.of_nat i)) (seq 1 9).

(** [x in xs] for a list of strings. *)
Definition str_in (x : pystr) (xs : list pystr) : bool :=
  existsb (fun y => bool_decide (y = x)) xs.

Section Sanitize.

(** Python's table behind [str.upper]. *)
Variable upper : pystr -> pystr.

(** [utils.sanitize_filename] *)
Definition sanitize_filename (filename : pystr) : pystr :=
  let filename := replace_invalid filename in
  let filename := rstrip_chars [46; 32] filename in
  let filename := lstrip filename in
  let filename := collapse_underscores filename in
  let filename :=
    if str_in (upper filename) reserved_names then 95 :: filename else filename in
  let filename :=
    if (200 <? length filename)%nat then take 200 filename else filename in
  match filename with
  | [] => py "file"
  | _ :: _ => filename
  end.

(** [VideoDownloader.get_output_path], as the components below
    [download_dir]: four directories and the file name. *)
Definition get_output_path (year semester course_name week title extension : pystr)
  : list pystr :=
  let year_clean :=
    match year with [] => py "Unknown" | _ :: _ => sanitize_filename year end in
  let semester_clean :=
    match semester with [] => py "Unknown" | _ :: _ => sanitize_filename semester end in
  let course_clean := sanitize_filename course_name in
  let week_clean := sanitize_filename week in
  let title_clean := sanitize_filename title in
  [year_clean; semester_clean; course_clean; week_clean;
   title_clean ++ py "." ++ extension].

(** A path component that names an entry of its own directory: not empty,
    not [.] or [..], and free of the characters [sanitize_filename]
    replaces, the two path separators among them. *)
Definition safe_component (s : pystr) : Prop :=
  s <> [] /\ s <> py "." /\ s <> py ".."
  /\ Forall (fun c => invalid_char c = false) s.

(** *** What each step keeps *)

Lemma replace_invalid_valid (s : pystr) :
  Forall (fun c => invalid_char c = false) (replace_invalid s).
Proof.
  unfold replace_invalid. induction s as [|c s IH]; simpl; constructor; [|done].
  destruct (invalid_char c) eqn:Hc; [reflexivity|exact Hc].
Qed.

Lemma lstrip_chars_suffix (chars : list codepoint) (s : pystr) :
  exists pre, s = pre ++ lstrip_chars chars s.
Proof.
  induction s as [|c s [pre IH]]; simpl; [by exists []|].
  destruct (existsb (Z.eqb c) chars).
  - exists (c :: pre). simpl. by f_equal.
  - by exists [].
Qed.

Lemma lstrip_chars_head (chars : list codepoint) (s : pystr) (c : codepoint)
    (t : pystr) :
  lstrip_chars chars s = c :: t -> existsb (Z.eqb c) chars = false.
Proof.
  induction s as [|c0 s IH]; simpl; [done|].
  destruct (existsb (Z.eqb c0) chars) eqn:Hc; [done|].
  intros [= <- <-]. done.
Qed.

Lemma lstrip_suffix (s : pystr) : exists pre, s = pre ++ lstrip s.
Proof.
  induction s as [|c s [pre IH]]; simpl; [by exists []|].
  destruct (isspace c).
  - exists (c :: pre). simpl. by f_equal.
  - by exists [].
Qed.

Lemma rstrip_chars_prefix (chars : list codepoint) (s : pystr) :
  exists post, s = rstrip_chars chars s ++ post.
Proof.
  unfold rstrip_chars. destruct (lstrip_chars_suffix chars (rev s)) as [pre Hpre].
  exists (rev pre). rewrite <- rev_app_distr, <- Hpre. by rewrite rev_involutive.
Qed.

(** After [rstrip('. ')] the string does not end with a dot. *)
Lemma rstrip_no_final_dot (s q : pystr) : rstrip_chars [46; 32] s <> q ++ [46].
Proof.
  unfold rstrip_chars. intros H.
  apply (f_equal (@rev _)) in H. rewrite rev_involutive, rev_app_distr in H.
  simpl in H. apply lstrip_chars_head in H. done.
Qed.

Lemma collapse_underscores_valid (P : codepoint -> Prop) (s : pystr) :
  Forall P s -> Forall P (collapse_underscores s).
Proof.
  induction s as [|c t IH]; intros H; [done|].
  apply Forall_cons in H as [Hc Ht]. specialize (IH Ht). simpl.
  destruct (c =? 95); [|by constructor].
  destruct t as [|c' t']; [by constructor|].
  destruct (c' =? 95); [done|by constructor].
Qed.

Lemma collapse_underscores_last (s : pystr) :
  (collapse_underscores s = [] -> s = [])
  /\ (forall q c, collapse_underscores s = q ++ [c] -> exists q', s = q' ++ [c]).
Proof.
  induction s as [|c0 t [IHnil IHlast]]; [split; [done|]; by intros [|??] ? [=]|].
  assert (Hcons : forall q c, c0 :: collapse_underscores t = q ++ [c] ->
                  exists q', c0 :: t = q' ++ [c]).
  { intros [|q0 q] c Heq; simpl in Heq; injection Heq as <- Hrest.
    - rewrite (IHnil Hrest). by exists [].
    - destruct (IHlast _ _ Hrest) as [q' ->]. by exists (c0 :: q'). }
  simpl. destruct (c0 =? 95); [|split; [done|exact Hcons]].
  destruct t as [|c' t']; [split; [done|]|].
  - intros q c H. by exists q.
  - destruct (c' =? 95); [|split; [done|exact Hcons]].
    split.
    + intros H. by specialize (IHnil H).
    + intros q c H. destruct (IHlast _ _ H) as [q' ->]. by exists (c0 :: q').
Qed.

Lemma Forall_suffix {A} (P : A -> Prop) (pre l : list A) :
  Forall P (pre ++ l) -> Forall P l.
Proof. intros H. by apply Forall_app in H as [_ ?]. Qed.

(** The string before truncation: free of the replaced characters and not
    ending with a dot. *)
Lemma sanitize_steps (s : pystr) :
  let f0 := collapse_underscores (lstrip (rstrip_chars [46; 32] (replace_invalid s))) in
  let f := if str_in (upper f0) reserved_names then 95 :: f0 else f0 in
  Forall (fun c => invalid_char c = false) f /\ forall q, f <> q ++ [46].
Proof.
  intros f0 f.
  assert (Hv0 : Forall (fun c => invalid_char c = false) f0).
  { apply collapse_underscores_valid.
    destruct (lstrip_suffix (rstrip_chars [46; 32] (replace_invalid s))) as [pre Hpre].
    apply (Forall_suffix _ pre). rewrite <- Hpre.
    destruct (rstrip_chars_prefix [46; 32] (replace_invalid s)) as [post Hpost].
    pose proof (replace_invalid_valid s) as Hr. rewrite Hpost in Hr.
    by apply Forall_app in Hr as [? _]. }
  assert (Hd0 : forall q, f0 <> q ++ [46]).
  { intros q Hq. apply collapse_underscores_last in Hq as [q' Hq'].
    destruct (lstrip_suffix (rstrip_chars [46; 32] (replace_invalid s))) as [pre Hpre].
    rewrite Hq', app_assoc in Hpre. by apply rstrip_no_final_dot in Hpre. }
  subst f. destruct (str_in (upper f0) reserved_names); [|done].
  split; [by constructor|].
  intros [|q0 q] Hq; simpl in Hq; injection Hq as Hc Hq; [done|].
  by apply Hd0 in Hq.
Qed.

Lemma sanitize_filename_component (filename : pystr) :
  safe_component (sanitize_filename filename).
Proof.
  unfold sanitize_filename, safe_component.
  destruct (sanitize_steps filename) as [Hv Hd].
  set (f := if str_in _ reserved_names then _ else _) in *. clearbody f.
  destruct (200 <? length f)%nat eqn:Hlen.
  - apply Nat.ltb_lt in Hlen.
    assert (Hl : length (take 200 f) = 200%nat) by (rewrite length_take; lia).
    destruct (take 200 f) as [|c t] eqn:Ht; [done|].
    split; [done|].
    split; [intros H; rewrite H in Hl; done|].
    split; [intros H; rewrite H in Hl; done|].
    rewrite <- Ht. apply Forall_take, Hv.
  - destruct f as [|c t].
    + repeat split; try done. vm_compute. repeat constructor.
    + repeat split; try done.
      * intros H. by apply (Hd []).
      * intros H. by apply (Hd [46]).
Qed.

(** The sanitized name is a safe path component of at most 200 code
    points, whatever the input: it is not empty, not [.] or [..], and holds
    no path separator, no other character the function replaces and no
    control character. *)
Theorem sanitize_filename_safe (filename : pystr) :
  safe_component (sanitize_filename filename)
  /\ (length (sanitize_filename filename) <= 200)%nat.
Proof.
  split; [apply sanitize_filename_component|].
  unfold sanitize_filename.
  set (f := if str_in _ reserved_names then _ else _). clearbody f.
  destruct (200 <? length f)%nat eqn:Hlen.
  - apply Nat.ltb_lt in Hlen.
    assert (Hl : length (take 200 f) = 200%nat) by (rewrite length_take; lia).
    destruct (take 200 f) as [|c t]; [done|].
    unfold codepoint, pystr in *. simpl in *. lia.
  - apply Nat.ltb_ge in Hlen. destruct f as [|c t]; [simpl; lia|].
    unfold codepoint, pystr in *. simpl in *. lia.
Qed.

Lemma file_name_safe (title extension : pystr) :
  Forall (fun c => invalid_char c = false) extension ->
  safe_component (sanitize_filename title ++ py "." ++ extension).
Proof.
  intros Hext.
  destruct (sanitize_filename_component title) as (Hne & Hd1 & Hd2 & Hv).
  destruct (sanitize_filename title) as [|c t]; [done|].
  split; [done|]. split; [|split].
  - destruct t; done.
  - destruct t as [|c' t]; [|by destruct t].
    destruct extension; [|done]. intros [= ->]. by apply Hd1.
  - apply Forall_app. split; [done|]. apply Forall_app. split; [|done].
    vm_compute. repeat constructor.
Qed.

(** Every component of an output path is safe, for an extension that is
    itself free of the replaced characters: the path names a file four
    directories below [download_dir]. An empty year or semester becomes
    'Unknown'. *)
Theorem get_output_path_stays_below_download_dir
    (year semester course_name week title extension : pystr) :
  Forall (fun c => invalid_char c = false) extension ->
  Forall safe_component
    (get_output_path year semester course_name week title extension)
  /\ length (get_output_path year semester course_name week title extension) = 5%nat
  /\ (year = [] ->
      get_output_path year semester course_name week title extension !! 0%nat
      = Some (py "Unknown")).
Proof.
  intros Hext. split; [|split; [done|by intros ->]].
  assert (Hunknown : safe_component (py "Unknown")).
  { repeat split; try done. vm_compute. repeat constructor. }
  unfold get_output_path.
  apply Forall_cons. split; [destruct year; [done|apply sanitize_filename_component]|].
  apply Forall_cons. split; [destruct semester; [done|apply sanitize_filename_component]|].
  apply Forall_cons. split; [apply sanitize_filename_component|].
  apply Forall_cons. split; [apply sanitize_filename_component|].
  apply Forall_cons. split; [by apply file_name_safe|constructor].
Qed.

End Sanitize.

(** [str.upper] on ASCII, for the worked inputs. *)
Definition ascii_upper (s : pystr) : pystr :=
  List.map (fun c => if (97 <=? c) && (c <=? 122) then c - 32 else c) s.

Example sanitize_filename_samples :
  sanitize_filename ascii_upper (py "a/b:c") = py "a_b_c"
  /\ sanitize_filename ascii_upper (py "..") = py "file"
  /\ sanitize_filename ascii_upper (py "con") = py "_con"
  /\ sanitize_filename ascii_upper (py "  x__y<>z.. ") = py "x_y_z".
Proof. vm_compute. repeat split. Qed.

Lemma get_output_path_stays_below_download_dir_witness :
  Forall (safe_component)
    (get_output_path ascii_upper (py "2025") [] (py "A/B: C") (py "..")
       (py "../../etc/passwd") (py "mp4"))
  /\ get_output_path ascii_upper (py "2025") [] (py "A/B: C") (py "..")
       (py "../../etc/passwd") (py "mp4")
     = [py "2025"; py "Unknown"; py "A_B_ C"; py "file"; py ".._.._etc_passwd.mp4"].
Proof.
  split; [|vm_compute; reflexivity].
  apply (get_output_path_stays_below_download_dir ascii_upper).
  vm_compute. repeat constructor.
Defined.

End Utils.

(* ===================================================================== *)
(** ** Scraper helpers ([scraper.py]) *)
(* ===================================================================== *)

From Stdlib Require DecimalZ DecimalPos Sorted.

Module Scraper.

Local Open Scope Z_scope.

#[local] Arguments contains : simpl never.

(** [s.endswith(e)] *)
Definition endswith (e s : pystr) : bool := startswith (rev e) (rev s).

(** [s.replace(old, new)] for a non-empty [old]. *)
Fixpoint replace_aux (old new : pystr) (skip : nat) (s : pystr) : pystr :=
  match s with
  | [] => []
  | c :: t =>
      match skip with
      | S k => replace_aux old new k t
      | O => if startswith old s
             then new ++ replace_aux old new (Nat.pred (length old)) t
             else c :: replace_aux old new O t
      end
  end.

Definition replace (old new s : pystr) : pystr := replace_aux old new O s.

(** [common_extensions] of [_extract_file_extension], in source order. *)
Definition common_extensions : list pystr :=
  [py ".pdf"; py ".docx"; py ".doc"; py ".pptx"; py ".ppt"; py ".xlsx"; py ".xls";
   py ".txt"; py ".md"; py ".zip"; py ".rar"; py ".7z";
   py ".py"; py ".ipynb"; py ".r"; py ".rmd"; py ".c"; py ".cpp"; py ".h"; py ".java";
   py ".html"; py ".css"; py ".js"; py ".json"; py ".xml";
   py ".csv"; py ".dat"; py ".sql"].

(** The extensions that contain an earlier entry of the list. *)
Definition shadowed_in_url : list pystr :=
  [py ".rmd"; py ".cpp"; py ".html"; py ".css"; py ".json"; py ".csv"].

Definition LEARNUS_ORIGIN : pystr := py "https://ys.learnus.org".

(** What the parser reads off one [div.activityinstance]: its first link
    with an [href], the [src] of its image, the text of its
    [span.instancename], and the enclosing section's name tag and
    [aria-label]. *)
Record Link : Type := mkLink { href : pystr; onclick : pystr }.

Record SectionTag : Type := mkSectionTag {
  name_tag : option pystr;
  aria_label : option pystr
}.

Record Activity : Type := mkActivity {
  link : option Link;
  img_src : option pystr;
  instancename : option pystr;
  section : option SectionTag
}.

Section Parsing.

(** [str.lower]; the first group of [re.search(r'id=(\d+)', s)]; and
    [re.sub(r'\s*동영상\s*$', '', title)]. *)
Variable lower : pystr -> pystr.
Variable search_id : pystr -> option pystr.
Variable strip_video_suffix : pystr -> pystr.

(** [LearnUsScraper._extract_file_extension] *)
Definition extract_file_extension (filename url : pystr) : pystr :=
  let filename_lower := lower filename in
  match List.find (fun ext => endswith ext filename_lower) common_extensions with
  | Some ext => ext
  | None =>
      let url_lower := lower url in
      match List.find (fun ext => contains ext url_lower) common_extensions with
      | Some ext => ext
      | None => []
      end
  end.

(** The video detection of [parse_lecture_list]: [viewer_url] when the
    activity is a video with a viewer, before the origin is prefixed. *)
Definition detect_viewer (a : Activity) : option pystr :=
  match link a with
  | None => None
  | Some l =>
      if contains (py "mod/vod") (href l) || contains (py "mod/vod") (onclick l) then
        if contains (py "viewer.php") (onclick l) then
          match search_id (onclick l) with
          | Some id => Some (LEARNUS_ORIGIN ++ py "/mod/vod/viewer.php?id=" ++ id)
          | None => None
          end
        else if contains (py "view.php") (href l)
             then Some (replace (py "view.php") (py "viewer.php") (href l))
        else if contains (py "viewer.php") (href l) then Some (href l)
        else None
      else if contains (py "mod/url") (href l) || contains (py "mod/kalvid") (href l)
              || contains (py "mod/commons") (href l) then
        match img_src a with
        | Some src =>
            if existsb (fun x => contains x src)
                 [py "icon"; py "video"; py "vod"; py "play"]
            then Some (href l) else None
        | None => None
        end
      else None
  end.

(** [if not viewer_url.startswith('http'): ...] *)
Definition absolute (viewer_url : pystr) : pystr :=
  if startswith (py "http") viewer_url then viewer_url
  else if startswith (py "/") viewer_url then LEARNUS_ORIGIN ++ viewer_url
  else LEARNUS_ORIGIN ++ py "/" ++ viewer_url.

Definition title_of (a : Activity) : pystr :=
  match instancename a with
  | Some text => strip_video_suffix text
  | None => py "Unknown Lecture"
  end.

Definition week_of (a : Activity) : pystr :=
  match section a with
  | None => py "General"
  | Some s =>
      match name_tag s with
      | Some text => text
      | None =>
          match aria_label s with
          | Some (c :: t) => c :: t
          | _ => py "General"
          end
      end
  end.

(** The loop over [activity_instances], with [lecture_counter]. *)
Fixpoint lectures_from (course_id course_name : pystr) (lecture_counter : nat)
    (activities : list Activity) : list LectureInfo :=
  match activities with
  | [] => []
  | a :: rest =>
      match detect_viewer a with
      | Some (c :: t) =>
          {| oid := lecture_counter;
             lecture_id := course_id ++ py "_" ++ Cache.str_of_Z (Z.of_nat lecture_counter);
             title := title_of a;
             week := week_of a;
             status := py "New";
             activity_url := absolute (c :: t);
             Reconcile.course_name := course_name;
             Reconcile.course_id := course_id |}
          :: lectures_from course_id course_name (S lecture_counter) rest
      | _ => lectures_from course_id course_name lecture_counter rest
      end
  end.

(** [LearnUsScraper.parse_lecture_list]: [page] is the list of activity
    instances of the fetched course page, or [None] when fetching or
    parsing raised, which the method answers with an empty list;
    [course_name] is what [get_course_name] returned. *)
Definition parse_lecture_list (page : option (list Activity))
    (course_name course_url : pystr) : list LectureInfo :=
  match page with
  | None => []
  | Some activity_instances =>
      let course_id := default [] (search_id course_url) in
      lectures_from course_id course_name 1 activity_instances
  end.

(** *** Extensions *)

Lemma startswith_both (p q s : pystr) :
  startswith p s = true -> startswith q s = true ->
  startswith p q = true \/ startswith q p = true.
Proof.
  revert q s. induction p as [|a p IH]; intros q s Hp Hq; [by left|].
  destruct q as [|b q]; [by right|].
  destruct s as [|c s]; [done|]. simpl in *.
  destruct (Z.eqb_spec a c) as [->|]; [|done].
  destruct (Z.eqb_spec b c) as [->|]; [|done].
  rewrite Z.eqb_refl. by apply (IH q s).
Qed.

Lemma startswith_app (p q s : pystr) :
  startswith (p ++ q) s = true -> startswith p s = true.
Proof.
  revert s. induction p as [|a p IH]; intros s H; [by destruct s|].
  destruct s as [|c s]; [done|]. simpl in *.
  destruct (a =? c); [by apply IH|done].
Qed.

(** A string that contains [p ++ q] contains [p]. *)
Lemma contains_app_l (p q s : pystr) :
  contains (p ++ q) s = true -> contains p s = true.
Proof.
  induction s as [|c s IH]; unfold contains; fold contains.
  - destruct (startswith (p ++ q) []) eqn:H; [|done].
    intros _. by rewrite (startswith_app _ _ _ H).
  - destruct (startswith (p ++ q) (c :: s)) eqn:H.
    + intros _. by rewrite (startswith_app _ _ _ H).
    + intros H'. rewrite (IH H'). by destruct (startswith p (c :: s)).
Qed.

(** No entry of [common_extensions] is a proper suffix of another. *)
Lemma extension_suffix_table (a b : pystr) :
  In a common_extensions -> In b common_extensions ->
  endswith a b = true -> a = b.
Proof.
  assert (Htab : forallb (fun a => forallb (fun b =>
            implb (endswith a b) (bool_decide (a = b))) common_extensions)
            common_extensions = true) by (vm_compute; reflexivity).
  intros Ha Hb Hab. rewrite forallb_forall in Htab.
  specialize (Htab a Ha). rewrite forallb_forall in Htab.
  specialize (Htab b Hb). rewrite Hab in Htab. simpl in Htab.
  by apply bool_decide_eq_true in Htab.
Qed.

(** The answer is empty or one of the listed extensions; and when the
    lowercased file name ends with a listed extension, the answer is that
    extension, whatever the URL. *)
Theorem extension_of_file_name (filename url ext : pystr) :
  (extract_file_extension filename url = []
   \/ In (extract_file_extension filename url) common_extensions)
  /\ (In ext common_extensions -> endswith ext (lower filename) = true ->
      extract_file_extension filename url = ext).
Proof.
  unfold extract_file_extension. split.
  - destruct (List.find _ common_extensions) as [e|] eqn:Hf.
    + right. by apply find_some in Hf as [? _].
    + destruct (List.find (fun ext => contains ext (lower url)) common_extensions)
        as [e|] eqn:Hu; [right|by left].
      by apply find_some in Hu as [? _].
  - intros Hin Hends.
    destruct (List.find _ common_extensions) as [e|] eqn:Hf.
    + apply find_some in Hf as [He Hends'].
      destruct (startswith_both _ _ _ Hends Hends') as [H|H].
      * symmetry. by apply extension_suffix_table.
      * by apply extension_suffix_table.
    + apply (find_none _ _ Hf) in Hin. simpl in Hin. congruence.
Qed.

Ltac not_shadowed :=
  let H := fresh in
  intros H; vm_compute in H;
  repeat (destruct H as [H|H]; [discriminate H|]); exact H.

Ltac shadowed_by e rest :=
  match goal with
  | Hno : contains (py e) ?u = false, Hyes : contains ?long ?u = true |- _ =>
      change long with (py e ++ py rest) in Hyes;
      apply contains_app_l in Hyes; congruence
  end.

(** When the file name ends with no listed extension, the answer comes
    from the URL by substring search in list order; an extension that
    contains an earlier entry ('.rmd' after '.r', '.cpp', '.css' and '.csv'
    after '.c', '.html' after '.h', '.json' after '.js') is never the
    answer. *)
Theorem url_extension_never_shadowed (filename url : pystr) :
  (forall ext, In ext common_extensions -> endswith ext (lower filename) = false) ->
  ~ In (extract_file_extension filename url) shadowed_in_url.
Proof.
  intros Hnone. unfold extract_file_extension.
  destruct (List.find (fun ext => endswith ext (lower filename)) common_extensions)
    as [e|] eqn:Hf.
  { apply find_some in Hf as [He Hends]. rewrite (Hnone e He) in Hends. done. }
  clear Hf Hnone. generalize (lower url). intros u.
  unfold common_extensions. cbn [List.find].
  repeat match goal with
         | |- context [if contains ?e u then _ else _] =>
             let H := fresh "Hc" in
             destruct (contains e u) eqn:H; [try not_shadowed|]
         end.
  all: try not_shadowed.
  - shadowed_by ".r" "md".
  - shadowed_by ".c" "pp".
  - shadowed_by ".h" "tml".
  - shadowed_by ".c" "ss".
  - shadowed_by ".js" "on".
  - shadowed_by ".c" "sv".
Qed.

(** *** Lecture numbering *)

Lemma py_inj (a b : string) : py a = py b -> a = b.
Proof.
  unfold py. intros H.
  rewrite <- (String.string_of_list_ascii_of_string a),
          <- (String.string_of_list_ascii_of_string b).
  f_equal. revert H.
  generalize (String.list_ascii_of_string a) (String.list_ascii_of_string b).
  induction l as [|x l IH]; intros [|y l']; simpl; try done.
  intros [= Hxy Hl]. f_equal; [|by apply IH].
  apply Nat2Z.inj in Hxy.
  rewrite <- (Ascii.ascii_nat_embedding x), <- (Ascii.ascii_nat_embedding y).
  by rewrite Hxy.
Qed.

Lemma str_of_Z_inj (a b : Z) : Cache.str_of_Z a = Cache.str_of_Z b -> a = b.
Proof.
  assert (Hnn : forall z, Z.to_int z <> Decimal.Pos Decimal.Nil
                         /\ Z.to_int z <> Decimal.Neg Decimal.Nil).
  { intros [|q|q]; split; try done; simpl; intros [= H];
      by apply DecimalPos.Unsigned.to_uint_nonnil in H. }
  unfold Cache.str_of_Z. intros H. apply py_inj in H.
  apply (f_equal DecimalString.NilZero.int_of_string) in H.
  rewrite !DecimalString.NilZero.isi in H by apply Hnn. injection H as H.
  apply (f_equal Z.of_int) in H. by rewrite !DecimalZ.of_to in H.
Qed.

Definition numbered_id (course_id : pystr) (k : nat) : pystr :=
  course_id ++ py "_" ++ Cache.str_of_Z (Z.of_nat k).

Lemma numbered_id_inj (course_id : pystr) (j k : nat) :
  numbered_id course_id j = numbered_id course_id k -> j = k.
Proof.
  unfold numbered_id. intros H. apply app_inv_head in H.
  injection H as H. apply str_of_Z_inj in H. lia.
Qed.

Lemma lectures_from_ids (course_id course_name : pystr) (k : nat)
    (activities : list Activity) :
  let ls := lectures_from course_id course_name k activities in
  List.map lecture_id ls = List.map (numbered_id course_id) (seq k (length ls))
  /\ (length ls <= length activities)%nat.
Proof.
  revert k. induction activities as [|a rest IH]; intros k; simpl; [done|].
  destruct (detect_viewer a) as [[|c t]|].
  - destruct (IH k) as [H1 H2]. split; [done|lia].
  - destruct (IH (S k)) as [H1 H2]. simpl. split; [by f_equal|lia].
  - destruct (IH k) as [H1 H2]. split; [done|lia].
Qed.


Lemma parse_lecture_list_ids
    (page : option (list Activity)) (course_name course_url : pystr) :
  let ls := parse_lecture_list page course_name course_url in
  List.map lecture_id ls
  = List.map (numbered_id (default [] (search_id course_url))) (seq 1 (length ls))
  /\ (length ls <= length (default [] page))%nat.
Proof.
  unfold parse_lecture_list. destruct page as [acts|]; simpl; [|split; [done|lia]].
  apply lectures_from_ids.
Qed.

Lemma parse_lecture_list_nodup
    (page : option (list Activity)) (course_name course_url : pystr) :
  NoDup (List.map lecture_id (parse_lecture_list page course_name course_url)).
Proof.
  destruct (parse_lecture_list_ids page course_name course_url) as [-> _].
  apply (NoDup_fmap_2_strong (numbered_id _)); [|apply NoDup_seq].
  intros j k _ _. apply numbered_id_inj.
Qed.



End Parsing.

(** *** Worked inputs *)

Example extract_file_extension_samples :
  extract_file_extension ascii_lower (py "Report.PDF") [] = py ".pdf"
  /\ extract_file_extension ascii_lower (py "data.tar.gz") [] = []
  /\ extract_file_extension ascii_lower (py "main") (py "https://h/src/main.cpp")
     = py ".c"
  /\ extract_file_extension ascii_lower (py "index")
       (py "https://h/pluginfile.php/1/index.html") = py ".h".
Proof. vm_compute. repeat split. Qed.

Lemma extension_of_file_name_witness :
  extract_file_extension ascii_lower (py "hw.DOCX") (py "https://h/f.pdf")
  = py ".docx".
Proof.
  apply (extension_of_file_name ascii_lower (py "hw.DOCX") (py "https://h/f.pdf")
           (py ".docx")).
  - vm_compute. tauto.
  - vm_compute. reflexivity.
Defined.

Lemma url_extension_never_shadowed_witness :
  extract_file_extension ascii_lower (py "main") (py "https://h/src/main.cpp")
  = py ".c"
  /\ ~ In (extract_file_extension ascii_lower (py "main")
            (py "https://h/src/main.cpp")) shadowed_in_url.
Proof.
  split; [vm_compute; reflexivity|].
  apply (url_extension_never_shadowed ascii_lower).
  intros ext Hin. vm_compute in Hin.
  repeat (destruct Hin as [<-|Hin]; [vm_compute; reflexivity|]).
  destruct Hin.
Defined.

End Scraper.

(* ===================================================================== *)
(** ** The life of a batch job under any schedule ([app.py]) *)
(* ===================================================================== *)

Module Lifecycle.

Import Jobs.

Local Open Scope nat_scope.

#[local] Arguments item_script : simpl never.
#[local] Arguments script_at : simpl never.

(** *** The registry *)

(** The three control endpoints. *)
Definition control_endpoints : list (pystr -> Registry -> HttpResult * Registry) :=
  [pause_task; resume_task; cancel_task].

(** A control request for one task id leaves every other task's record as
    it is and neither adds nor removes a task id; for an unknown id it
    changes nothing at all. *)
Theorem control_requests_keep_other_tasks
    (endpoint : pystr -> Registry -> HttpResult * Registry)
    (task_id other : pystr) (task_status : Registry) :
  In endpoint control_endpoints ->
  let after := (endpoint task_id task_status).2 in
  dom after = dom task_status
  /\ (other <> task_id -> after !! other = task_status !! other)
  /\ (task_status !! task_id = None -> after = task_status).
Proof.
  intros Hin after.
  assert (Hcases : after = task_status
                   \/ exists r r', task_status !! task_id = Some r
                                   /\ after = <[task_id := r']> task_status).
  { subst after. unfold control_endpoints in Hin. simpl in Hin.
    destruct Hin as [<-|[<-|[<-|[]]]];
      unfold pause_task, resume_task, cancel_task;
      destruct (task_status !! task_id) as [r|] eqn:Hr; simpl; auto;
      try destruct (bool_decide (status r <> Running)); simpl; eauto. }
  destruct Hcases as [->|(r & r' & Hr & ->)]; [done|].
  split; [|split].
  - apply dom_insert_lookup_L. by rewrite Hr.
  - intros Hne. by apply lookup_insert_ne.
  - intros Hnone. congruence.
Qed.

Section Schedules.

Variable req : DownloadRequest.
Variable co : Collab.

(** *** After a cancel request *)








(** *** What no event undoes *)

Lemma event_appends (e : Event) (s : Sys) :
  exists suffix,
    messages (rec (do_event req co e s)) = messages (rec s) ++ suffix
    /\ total (rec (do_event req co e s)) = total (rec s).
Proof.
  destruct s as [r p wc wf]. destruct e; simpl.
  - unfold download_task_step. simpl.
    destruct p as [|idx|idx|idx|idx [|op ops]| |]; simpl;
      try (exists []; by rewrite app_nil_r).
    + destruct (setup_error co); [|destruct (local_features_requested req)];
        simpl; eauto. exists []; by rewrite app_nil_r.
    + destruct (lecture_ids req !! idx); [destruct (stopped r)|]; simpl; eauto;
        exists []; by rewrite app_nil_r.
    + destruct (paused r && negb (stopped r)); simpl;
        exists []; by rewrite app_nil_r.
    + destruct (stopped r); simpl; eauto. exists []; by rewrite app_nil_r.
    + destruct op; simpl; eauto; exists []; by rewrite app_nil_r.
    + eauto.
  - rewrite on_record_pause. destruct (bool_decide (status r <> Running)); simpl;
      eauto. exists []; by rewrite app_nil_r.
  - rewrite on_record_resume. destruct (bool_decide (status r <> Running)); simpl;
      eauto. exists []; by rewrite app_nil_r.
  - rewrite on_record_cancel. simpl. eauto.
Qed.

Lemma exec_appends (schedule : list Event) (s : Sys) :
  exists suffix,
    messages (rec (exec req co schedule s)) = messages (rec s) ++ suffix.
Proof.
  revert s. induction schedule as [|e es IH]; intros s; simpl.
  - exists []. by rewrite app_nil_r.
  - destruct (IH (do_event req co e s)) as [suf ->].
    destruct (event_appends e s) as (suf0 & -> & _).
    exists (suf0 ++ suf). by rewrite app_assoc.
Qed.

Lemma exec_total (schedule : list Event) (s : Sys) :
  total (rec (exec req co schedule s)) = total (rec s).
Proof.
  revert s. induction schedule as [|e es IH]; intros s; simpl; [done|].
  rewrite IH. by destruct (event_appends e s) as (? & _ & ->).
Qed.

(** The log of a job only grows and its total never changes: whatever the
    worker and the clients do, the messages read earlier are a prefix of the
    messages read later, the total is the one the job was registered with,
    and the per-item map is never written. *)
Theorem log_only_grows (schedule : list Event) (s : Sys) :
  let s' := exec req co schedule s in
  (exists suffix, messages (rec s') = messages (rec s) ++ suffix)
  /\ total (rec s') = total (rec s)
  /\ items (rec s') = items (rec s).
Proof.
  simpl. split; [apply exec_appends|].
  split; [apply exec_total|apply items_untouched].
Qed.


(** *** A job nobody interferes with *)







(** The worker steps of the iterations from [idx] on: three flag tests, the
    script and the jump back, for each. *)
Definition span (idx : nat) : nat :=
  list_sum (List.map (fun i => 4 + length (script_at req co i))
              (seq idx (length (lecture_ids req) - idx))).






(** *** A job that is paused and resumed *)

(** The worker steps that take a job nobody holds back from where it
    stands to the end of its thread. *)
Definition rest (s : Sys) : nat :=
  match pc s with
  | PcStart => 1 + (span 0 + 2)
  | PcCheckStop idx => span idx + 2
  | PcPauseWait idx => 2 + (S (length (script_at req co idx)) + (span (S idx) + 2))
  | PcRecheckStop idx => 1 + (S (length (script_at req co idx)) + (span (S idx) + 2))
  | PcItem idx ops => S (length ops) + (span (S idx) + 2)
  | PcAfterLoop => 1
  | PcDone => 0
  end.














(** *** A job the web build refuses *)

Definition refused (s : Sys) : Prop :=
  completed (rec s) = 0 /\ failed (rec s) = 0 /\ processed s = 0
  /\ progress (rec s) = 0
  /\ ((pc s = PcStart /\ (status (rec s) = Running \/ status (rec s) = Cancelled))
      \/ (pc s = PcDone /\ (status (rec s) = Error \/ status (rec s) = Cancelled))).

Lemma refused_event (e : Event) (s : Sys) :
  local_features_requested req = true ->
  refused s ->
  refused (do_event req co e s) /\ (e = Tick \/ pc s = PcDone ->
                                     pc (do_event req co e s) = PcDone).
Proof.
  intros Hloc (Hc & Hf & Hp & Hpr & Hpos).
  destruct s as [r p wc wf]. unfold refused, processed in *. simpl in *.
  destruct e; simpl.
  - unfold download_task_step. simpl.
    destruct Hpos as [[-> Hs]|[-> Hs]]; simpl.
    + destruct (setup_error co); [|rewrite Hloc]; simpl; auto 10.
    + auto 10.
  - rewrite on_record_pause.
    destruct (bool_decide (status r <> Running)); simpl;
      (split; [auto 10|]); intros [?|?]; done.
  - rewrite on_record_resume.
    destruct (bool_decide (status r <> Running)); simpl;
      (split; [auto 10|]); intros [?|?]; done.
  - rewrite on_record_cancel. simpl.
    split; [|intros [?|?]; done].
    repeat (split; [done|]). destruct Hpos as [[-> _]|[-> _]]; auto.
Qed.

Lemma refused_exec (schedule : list Event) (s : Sys) :
  local_features_requested req = true ->
  refused s ->
  refused (exec req co schedule s)
  /\ (In Tick schedule \/ pc s = PcDone -> pc (exec req co schedule s) = PcDone).
Proof.
  intros Hloc. revert s. induction schedule as [|e es IH]; intros s Hs.
  - split; [done|]. intros [[]|?]. done.
  - simpl. destruct (refused_event e s Hloc Hs) as [Hr Hd].
    destruct (IH _ Hr) as [Hr' Hd']. split; [done|].
    intros [[->|Hin]|Hdone]; apply Hd'; auto.
Qed.

(** A selection that asks for transcription, audio summaries or video
    analysis downloads nothing in the web build: under any schedule no item
    is ever counted and the progress stays at zero, and once the worker has
    taken its first step the thread has returned and the status reads
    'error', or 'cancelled' after a cancel request, never 'completed'. *)
Theorem local_features_refused (r0 : TaskRecord) (schedule : list Event) :
  new_task req = Some r0 -> local_features_requested req = true ->
  let s := exec req co schedule (start r0) in
  completed (rec s) = 0 /\ failed (rec s) = 0 /\ processed s = 0
  /\ progress (rec s) = 0
  /\ (In Tick schedule ->
      pc s = PcDone /\ (status (rec s) = Error \/ status (rec s) = Cancelled)).
Proof.
  intros Hnew Hloc s.
  assert (H0 : refused (start r0)).
  { unfold new_task in Hnew. destruct (lecture_ids req); [done|].
    injection Hnew as <-. unfold refused, processed. simpl. auto 10. }
  destruct (refused_exec schedule (start r0) Hloc H0) as [(Hc & Hf & Hp & Hpr & Hpos) Hd].
  fold s in Hc, Hf, Hp, Hpr, Hpos, Hd.
  repeat (split; [done|]). intros Hin.
  assert (Hpc : pc s = PcDone) by (apply Hd; by left).
  split; [done|]. destruct Hpos as [[? _]|[_ ?]]; [congruence|done].
Qed.

End Schedules.

(** *** Worked inputs *)

Lemma control_requests_keep_other_tasks_witness :
  let reg : Registry :=
    {[ py "download_1" := registered one_lecture;
       py "download_2" := registered two_lectures ]} in
  (cancel_task (py "download_1") reg).2 !! py "download_2"
  = Some (registered two_lectures)
  /\ dom (cancel_task (py "download_1") reg).2 = dom reg.
Proof.
  intros reg.
  destruct (control_requests_keep_other_tasks cancel_task (py "download_1")
              (py "download_2") reg) as (Hdom & Hother & _).
  { vm_compute. tauto. }
  split; [|exact Hdom].
  rewrite Hother by (vm_compute; discriminate).
  unfold reg. rewrite lookup_insert_ne by (vm_compute; discriminate).
  apply lookup_singleton_eq.
Defined.




Lemma local_features_refused_witness :
  let s := run with_transcription all_good [Pause; Tick; Resume; Cancel; Tick] in
  completed (rec s) = 0 /\ pc s = PcDone
  /\ (status (rec s) = Error \/ status (rec s) = Cancelled).
Proof.
  intros s.
  destruct (local_features_refused with_transcription all_good
              (registered with_transcription)
              [Pause; Tick; Resume; Cancel; Tick]) as (Hc & _ & _ & _ & Hd);
    [reflexivity|reflexivity|].
  split; [exact Hc|]. apply Hd. vm_compute. tauto.
Defined.

End Lifecycle.

(* ===================================================================== *)
(** ** The materials job and the single-item job ([app.py]) *)
(* ===================================================================== *)

Module Workers.

Import Jobs.

Local Open Scope nat_scope.

(** *** What the materials job counts *)












Section MaterialsCounts.

Variable percent : nat -> nat -> nat.










End MaterialsCounts.

(** *** The single-item job *)

(** Body of [POST /api/download-single]: the keys the endpoint and its
    worker read, apart from those that only name directories. *)
Record SingleRequest : Type := mkSingle {
  item_type : option pystr;
  item_id : option pystr;
  item_name : pystr
}.

Inductive SingleAnswer : Type :=
| Single401
| Single400
| SingleStarted (r : TaskRecord).

(** [download_single_item] up to the start of the thread. *)
Definition download_single_item (logged_in : bool) (q : SingleRequest)
  : SingleAnswer :=
  if negb logged_in then Single401
  else match truthy (item_type q), truthy (item_id q) with
       | Some _, Some id =>
           SingleStarted
             {| status := Running; progress := 0; total := 1; completed := 0;
                failed := 0; messages := []; paused := false; stopped := false;
                current_lecture_index := 0;
                items := {[ id := mkItem 0 (py "downloading") ]} |}
       | _, _ => Single400
       end.

(** What the worker's collaborators do during one job: the lecture cache,
    an exception raised while the scraper is set up or while the output
    path and its directory are made, the two [exists()] tests of the
    target, whether a copy was found in the old layout and whether moving
    it produced the target, and the result of the download. *)
Record SingleWorld : Type := mkWorld {
  w_lectures_cache : list LectureInfo;
  w_setup_error : option pystr;
  w_video_url : LectureInfo -> option pystr;
  w_path_error : option pystr;
  w_exists_first : bool;
  w_old_file : bool;
  w_relocated_here : bool;
  w_exists_second : bool;
  w_download : bool
}.

(** A log line given as text. *)
Definition line (text : pystr) : Msg := MsgMaterials text.

Definition set_item (id : pystr) (e : ItemEntry) (r : TaskRecord) : TaskRecord :=
  mkTask (status r) (progress r) (total r) (completed r) (failed r) (messages r)
         (paused r) (stopped r) (current_lecture_index r) (<[id := e]> (items r)).

(** [status = 'completed'; completed = 1; items[item_id] = {100, 'completed'}] *)
Definition mark_completed (id : pystr) (r : TaskRecord) : TaskRecord :=
  set_item id (mkItem 100 (py "completed")) (set_completed 1 (set_status Completed r)).

(** [status = 'error'; failed = 1; items[item_id] = {0, 'failed'}] *)
Definition mark_failed (id : pystr) (r : TaskRecord) : TaskRecord :=
  set_item id (mkItem 0 (py "failed")) (set_failed 1 (set_status Error r)).

(** [status = 'error'; failed = 1; messages.append(text)] *)
Definition fail_with (text : pystr) (r : TaskRecord) : TaskRecord :=
  append_message (line text) (set_failed 1 (set_status Error r)).

(** The check of the old directory layout that precedes both downloads;
    [true] when the relocated file is the target and the worker returns. *)
Definition relocate (w : SingleWorld) (name : pystr) (r : TaskRecord)
  : TaskRecord * bool :=
  if negb (w_exists_first w) && w_old_file w
  then (append_message
          (line (py "Found existing file in old structure, relocating: " ++ name)) r,
        w_relocated_here w)
  else (r, false).

(** [download_single_task], for the request [q] with item id [id]. *)
Definition download_single_task (w : SingleWorld) (q : SingleRequest) (id : pystr)
    (r : TaskRecord) : TaskRecord :=
  match w_setup_error w with
  | Some e => fail_with (py "Error: " ++ e) r
  | None =>
      if bool_decide (item_type q = Some (py "video")) then
        match List.find (fun l => bool_decide (lecture_id l = id)) (w_lectures_cache w) with
        | None => fail_with (py "Lecture not found") r
        | Some lecture =>
            match truthy (w_video_url w lecture) with
            | None => fail_with (py "Failed to extract video URL") r
            | Some video_url =>
                match w_path_error w with
                | Some e => fail_with (py "Error: " ++ e) r
                | None =>
                    let '(r, moved) := relocate w (title lecture) r in
                    if moved then mark_completed id r
                    else if w_exists_second w
                    then append_message
                           (line (py "File already exists: " ++ title lecture))
                           (mark_completed id r)
                    else
                      let r := append_message (MsgDownloading (title lecture)) r in
                      if w_download w then mark_completed id r else mark_failed id r
                end
            end
        end
      else if bool_decide (item_type q = Some (py "material"))
              || bool_decide (item_type q = Some (py "assignment")) then
        match w_path_error w with
        | Some e => fail_with (py "Error: " ++ e) r
        | None =>
            let '(r, moved) := relocate w (item_name q) r in
            if moved then mark_completed id r
            else if w_exists_second w
            then append_message (line (py "File already exists"))
                   (set_completed 1 (set_status Completed r))
            else if w_download w then mark_completed id r else mark_failed id r
        end
      else r
  end.




(** *** Worked inputs *)

Definition world (already_there : bool) : SingleWorld :=
  {| w_lectures_cache := scenario_lectures; w_setup_error := None;
     w_video_url := fun _ => Some (py "https://cdn.example/v.mp4");
     w_path_error := None; w_exists_first := already_there; w_old_file := false;
     w_relocated_here := false; w_exists_second := already_there;
     w_download := true |}.

Definition single (ty : string) : SingleRequest :=
  {| item_type := Some (py ty); item_id := Some (py "7_1");
     item_name := py "notes.pdf" |}.

Definition started (q : SingleRequest) : TaskRecord :=
  match download_single_item true q with
  | SingleStarted r => r
  | _ => mkTask Error 0 0 0 0 [] false false 0 ∅
  end.

Example single_job_samples :
  status (download_single_task (world false) (single "video") (py "7_1")
            (started (single "video"))) = Completed
  /\ items (download_single_task (world true) (single "material") (py "7_1")
              (started (single "material"))) !! py "7_1"
     = Some (mkItem 0 (py "downloading"))
  /\ status (download_single_task (world true) (single "material") (py "7_1")
               (started (single "material"))) = Completed
  /\ download_single_task (world false) (single "quiz") (py "7_1")
       (started (single "quiz")) = started (single "quiz")
  /\ download_single_item true (mkSingle None (Some (py "7_1")) []) = Single400.
Proof. vm_compute. repeat split. Qed.


End Workers.

(* ===================================================================== *)
(** ** Listing semesters and courses ([app.py]) *)
(* ===================================================================== *)

Module Catalog.

Import Cache.

(** *** The discovery loop *)

(** The year and semester pairs the discovery loop probes, in its order:
    [for check_year in range(y, y - 6, -1): for check_sem in [...]]. *)
Definition grid (env : Env) : list (pystr * pystr) :=
  flat_map (fun y => List.map (fun s => (str_of_Z y, s)) discovery_semesters)
    (discovery_years env).

(** What one probe appends to [available_semesters]. *)
Definition semester_entry (env : Env) (ys : pystr * pystr) : list SemesterEntry :=
  match parse_course_list env ys.1 ys.2 with
  | [] => []
  | c :: cs => [{| se_year := ys.1; se_semester := ys.2;
                   se_course_count := length (c :: cs) |}]
  end.

Lemma fold_probe (env : Env) (probes : list (pystr * pystr))
    (acc : list CourseInfo * list SemesterEntry * list Call) :
  fold_left (probe env) probes acc
  = (acc.1.1 ++ flat_map (fun ys => parse_course_list env ys.1 ys.2) probes,
     acc.1.2 ++ flat_map (semester_entry env) probes,
     acc.2 ++ List.map (fun ys => CallCourseList ys.1 ys.2) probes).
Proof.
  revert acc. induction probes as [|ys probes IH]; intros [[cs sems] calls]; simpl.
  - by rewrite !app_nil_r.
  - rewrite IH. unfold semester_entry.
    destruct (parse_course_list env ys.1 ys.2) as [|c rest]; simpl.
    + by rewrite <- !app_assoc.
    + by rewrite <- !app_assoc.
Qed.

Lemma semester_entry_counts (env : Env) (probes : list (pystr * pystr)) :
  list_sum (List.map se_course_count (flat_map (semester_entry env) probes))
  = length (flat_map (fun ys => parse_course_list env ys.1 ys.2) probes)
  /\ Forall (fun e => (1 <= se_course_count e)%nat
                      /\ se_course_count e
                         = length (parse_course_list env (se_year e) (se_semester e)))
       (flat_map (semester_entry env) probes).
Proof.
  induction probes as [|ys probes [IH1 IH2]]; simpl; [by split|].
  rewrite List.map_app, list_sum_app, length_app, IH1. unfold semester_entry.
  destruct (parse_course_list env ys.1 ys.2) as [|c rest] eqn:Hp; simpl.
  - by split.
  - split; [lia|]. constructor; [|done]. simpl. rewrite Hp. simpl. lia.
Qed.

(** In discovery mode the handler asks the scraper for the course list of
    twenty-four semesters: the current year and the five before it, newest
    first, each with the codes 20, 11, 10, 21 in that order. The courses it
    goes on with are the answers strung together in that order; a semester
    is listed as available exactly when its answer is not empty, with the
    length of its answer as its course count, so the counts sum to the
    number of courses. *)
Theorem discovery_probes_every_semester (env : Env) (req : Request) :
  q_discover req = true ->
  let listing := list_courses env req in
  listing.2 = List.map (fun ys => CallCourseList ys.1 ys.2) (grid env)
  /\ length listing.2 = 24%nat
  /\ List.map fst (grid env)
     = flat_map (fun k => repeat (str_of_Z (today_year env - Z.of_nat k)) 4) (seq 0 6)
  /\ listing.1.1 = flat_map (fun ys => parse_course_list env ys.1 ys.2) (grid env)
  /\ listing.1.2 = flat_map (semester_entry env) (grid env)
  /\ list_sum (List.map se_course_count listing.1.2) = length listing.1.1
  /\ Forall (fun e => (1 <= se_course_count e)%nat
                      /\ se_course_count e
                         = length (parse_course_list env (se_year e) (se_semester e)))
       listing.1.2.
Proof.
  intros Hd listing. subst listing. unfold list_courses. rewrite Hd.
  fold (grid env). rewrite fold_probe. simpl.
  destruct (semester_entry_counts env (grid env)) as [Hsum Hall].
  repeat split; try done.
Qed.

(** *** A refresh and what it answers *)

Section Fresh.

Variable isalnum : codepoint -> bool.
Variable lower : pystr -> pystr.






End Fresh.

(** *** Semester codes and the list of available semesters *)

(** [get_semester_name]: a dict lookup with a default. *)
Definition get_semester_name (semester_code : pystr) : pystr :=
  if bool_decide (semester_code = py "10") then py "1st Semester"
  else if bool_decide (semester_code = py "20") then py "2nd Semester"
  else if bool_decide (semester_code = py "11") then py "Summer"
  else if bool_decide (semester_code = py "21") then py "Winter"
  else py "Semester " ++ semester_code.

Definition semester_names : list pystr :=
  [py "1st Semester"; py "2nd Semester"; py "Summer"; py "Winter"].

(** One element of ['semesters'] in the answer of
    [GET /api/available-semesters]. *)
Record SemesterRow : Type := mkRow {
  sr_year : pystr; sr_semester : pystr; sr_semester_name : pystr;
  sr_course_count : nat
}.

(** Python's order on [str]: code point by code point, a proper prefix
    first. *)
Fixpoint str_compare (a b : pystr) : comparison :=
  match a, b with
  | [], [] => Eq
  | [], _ :: _ => Lt
  | _ :: _, [] => Gt
  | x :: a', y :: b' =>
      match Z.compare x y with
      | Eq => str_compare a' b'
      | c => c
      end
  end.

(** The order on the sort keys [(x['year'], x['semester'])]. *)
Definition key_compare (a b : SemesterRow) : comparison :=
  match str_compare (sr_year a) (sr_year b) with
  | Eq => str_compare (sr_semester a) (sr_semester b)
  | c => c
  end.

(** [list.sort(key=..., reverse=True)]: descending and stable, rows with
    equal keys keep their order. *)
Fixpoint insert_desc (x : SemesterRow) (l : list SemesterRow) : list SemesterRow :=
  match l with
  | [] => [x]
  | y :: l' =>
      match key_compare y x with
      | Gt => y :: insert_desc x l'
      | _ => x :: y :: l'
      end
  end.

Definition sort_desc (l : list SemesterRow) : list SemesterRow :=
  foldr insert_desc [] l.

(** The probes of [get_available_semesters]: nine years, four codes. *)
Definition long_grid (env : Env) : list (pystr * pystr) :=
  flat_map (fun y => List.map (fun s => (str_of_Z y, s)) discovery_semesters)
    (List.map (fun k => today_year env - Z.of_nat k) (seq 0 9)).

Definition semester_row (env : Env) (ys : pystr * pystr) : list SemesterRow :=
  match parse_course_list env ys.1 ys.2 with
  | [] => []
  | c :: cs => [{| sr_year := ys.1; sr_semester := ys.2;
                   sr_semester_name := get_semester_name ys.2;
                   sr_course_count := length (c :: cs) |}]
  end.

Inductive SemestersAnswer : Type :=
| Semesters401
| Semesters (semesters : list SemesterRow).

(** [GET /api/available-semesters] *)
Definition get_available_semesters (env : Env) (st : AppState)
  : SemestersAnswer * list Call :=
  match auth_session st with
  | None => (Semesters401, [])
  | Some _ =>
      (Semesters (sort_desc (flat_map (semester_row env) (long_grid env))),
       List.map (fun ys => CallCourseList ys.1 ys.2) (long_grid env))
  end.

(** Each row's key is at least the next row's. *)
Definition descending (l : list SemesterRow) : Prop :=
  Sorted.Sorted (fun a b => key_compare a b <> Lt) l.

Lemma str_compare_antisym (a b : pystr) :
  str_compare b a = CompOpp (str_compare a b).
Proof.
  revert b. induction a as [|x a IH]; intros [|y b]; simpl; try done.
  rewrite (Z.compare_antisym x y). destruct (x ?= y); simpl; [apply IH|done|done].
Qed.

Lemma key_compare_antisym (a b : SemesterRow) :
  key_compare b a = CompOpp (key_compare a b).
Proof.
  unfold key_compare. rewrite (str_compare_antisym (sr_year a) (sr_year b)).
  destruct (str_compare (sr_year a) (sr_year b)); simpl; try done.
  apply str_compare_antisym.
Qed.

Lemma insert_desc_perm (x : SemesterRow) (l : list SemesterRow) :
  Permutation (insert_desc x l) (x :: l).
Proof.
  induction l as [|y l IH]; simpl; [done|].
  destruct (key_compare y x); try done.
  rewrite IH. apply perm_swap.
Qed.

Lemma insert_desc_descending (x : SemesterRow) (l : list SemesterRow) :
  descending l -> descending (insert_desc x l).
Proof.
  unfold descending. induction l as [|y l IH]; intros Hs; simpl.
  - by repeat constructor.
  - apply Sorted.Sorted_inv in Hs as [Hs Hhd].
    destruct (key_compare y x) eqn:Hyx.
    + constructor; [by constructor|]. constructor.
      rewrite key_compare_antisym, Hyx. done.
    + constructor; [by constructor|]. constructor.
      rewrite key_compare_antisym, Hyx. done.
    + constructor; [by apply IH|].
      destruct l as [|z l]; simpl.
      * constructor. by rewrite Hyx.
      * apply Sorted.HdRel_inv in Hhd.
        destruct (key_compare z x); constructor; by rewrite ?Hyx.
Qed.

Lemma sort_desc_spec (l : list SemesterRow) :
  Permutation (sort_desc l) l /\ descending (sort_desc l).
Proof.
  induction l as [|x l [IHp IHs]]; simpl; [split; [done|constructor]|].
  split; [by rewrite insert_desc_perm, IHp|by apply insert_desc_descending].
Qed.

Lemma semester_row_shape (env : Env) (probes : list (pystr * pystr)) :
  Forall (fun ys => In ys.2 discovery_semesters) probes ->
  Forall (fun r => In (sr_semester r) discovery_semesters
                   /\ In (sr_semester_name r) semester_names
                   /\ (1 <= sr_course_count r)%nat
                   /\ sr_course_count r
                      = length (parse_course_list env (sr_year r) (sr_semester r)))
    (flat_map (semester_row env) probes).
Proof.
  induction 1 as [|ys probes Hys _ IH]; simpl; [constructor|].
  apply Forall_app. split; [|done]. unfold semester_row.
  destruct (parse_course_list env ys.1 ys.2) as [|c cs] eqn:Hp; constructor; [|done].
  simpl. rewrite Hp. split; [done|]. split; [|split; [simpl; lia|done]].
  unfold discovery_semesters in Hys. simpl in Hys.
  destruct Hys as [<-|[<-|[<-|[<-|[]]]]]; vm_compute; tauto.
Qed.

Lemma long_grid_codes (env : Env) :
  Forall (fun ys => In ys.2 discovery_semesters) (long_grid env)
  /\ length (long_grid env) = 36%nat.
Proof.
  unfold long_grid. split; [|done].
  apply List.Forall_forall. intros ys Hin.
  apply in_flat_map in Hin as (y & _ & Hin).
  apply in_map_iff in Hin as (s & <- & Hs). done.
Qed.

(** The list of available semesters is newest first. For a logged-in
    caller the handler probes thirty-six semesters (nine years, four codes)
    and answers with those that have courses, each with its course count
    and one of the four semester names, never the fallback name; the rows
    are a rearrangement of the probes that found courses, in descending
    order of year and then of code (as Python orders strings). Without a
    session it answers 401 and probes nothing. *)
Theorem available_semesters_newest_first (env : Env) (st : AppState) :
  match get_available_semesters env st with
  | (Semesters401, calls) => auth_session st = None /\ calls = []
  | (Semesters rows, calls) =>
      auth_session st <> None
      /\ length calls = 36%nat
      /\ Permutation rows (flat_map (semester_row env) (long_grid env))
      /\ descending rows
      /\ Forall (fun r => In (sr_semester r) discovery_semesters
                          /\ In (sr_semester_name r) semester_names
                          /\ (1 <= sr_course_count r)%nat
                          /\ sr_course_count r
                             = length (parse_course_list env (sr_year r)
                                         (sr_semester r)))
           rows
  end.
Proof.
  unfold get_available_semesters. destruct (auth_session st); [|done].
  destruct (long_grid_codes env) as [Hcodes Hlen].
  destruct (sort_desc_spec (flat_map (semester_row env) (long_grid env))) as [Hp Hs].
  split; [done|]. split; [by rewrite length_map|]. split; [done|]. split; [done|].
  pose proof (semester_row_shape env _ Hcodes) as Hall.
  apply List.Forall_forall. rewrite List.Forall_forall in Hall.
  intros r Hr. apply Hall. by apply (Permutation_in _ Hp).
Qed.

(** The semester the handler picks by default is one that discovery
    probes. Whatever the month, [get_current_semester] answers with the
    current year and one of the codes 10, 11, 20, 21, which
    [get_semester_name] knows; so the one course-list call of a request
    without parameters is among the twenty-four calls of a discovery
    request. *)
Theorem current_semester_is_probed (env : Env) (req req' : Request) :
  let current := get_current_semester env in
  In current.2 discovery_semesters
  /\ In (get_semester_name current.2) semester_names
  /\ current.1 = str_of_Z (today_year env)
  /\ In current (grid env)
  /\ (q_discover req = false -> given (q_year req) = None ->
      q_discover req' = true ->
      (list_courses env req).2 = [CallCourseList current.1 current.2]
      /\ In (CallCourseList current.1 current.2) (list_courses env req').2).
Proof.
  intros current.
  assert (Hcode : In current.2 discovery_semesters
                  /\ In (get_semester_name current.2) semester_names).
  { subst current. unfold get_current_semester. simpl.
    destruct ((today_month env =? 1) || (today_month env =? 2));
      [vm_compute; tauto|].
    destruct ((3 <=? today_month env) && (today_month env <=? 7));
      [vm_compute; tauto|].
    destruct (today_month env =? 8); vm_compute; tauto. }
  destruct Hcode as [Hc Hn].
  assert (Hgrid : In current (grid env)).
  { unfold grid, discovery_years. apply in_flat_map.
    exists (today_year env). split.
    - apply in_map_iff. exists 0%nat. split; [simpl; lia|]. simpl. tauto.
    - apply in_map_iff. exists current.2. split; [reflexivity|done]. }
  split; [done|]. split; [done|]. split; [done|]. split; [done|].
  intros Hd Hy Hd'. split.
  - unfold list_courses. rewrite Hd, Hy. cbn iota. subst current.
    by destruct (get_current_semester env).
  - apply (in_map (fun ys => CallCourseList ys.1 ys.2)) in Hgrid.
    unfold list_courses. rewrite Hd'. fold (grid env). rewrite fold_probe.
    exact Hgrid.
Qed.

(** *** Worked inputs *)

Definition discover_request : Request :=
  {| q_year := None; q_semester := None; q_discover := true;
     q_force_refresh := false |}.

(** A scraper that knows one course, in the second semester of 2025. *)
Definition one_semester_env : Env :=
  {| parse_course_list :=
       fun y s => if bool_decide (y = py "2025") && bool_decide (s = py "20")
                  then [sample_course] else [];
     parse_course_content :=
       fun _ => {| ct_sections := scenario_sections; ct_professor := None |};
     parse_lecture_list := fun _ => scenario_lectures;
     completion := fun cs => cs;
     today_year := 2026; today_month := 3;
     clock_check := 100; clock_save := 105; write_ok := true |}.

Lemma discovery_probes_every_semester_witness :
  (list_courses one_semester_env discover_request).1.2
  = [{| se_year := py "2025"; se_semester := py "20"; se_course_count := 1 |}]
  /\ length (list_courses one_semester_env discover_request).2 = 24%nat.
Proof.
  destruct (discovery_probes_every_semester one_semester_env discover_request eq_refl)
    as (_ & Hlen & _ & _ & Hsems & _).
  split; [|exact Hlen]. rewrite Hsems. vm_compute. reflexivity.
Defined.

Example available_semesters_sample :
  let env := {| parse_course_list :=
                  fun y s => if bool_decide (y = py "2025") || bool_decide (s = py "21")
                             then [sample_course] else [];
                parse_course_content := fun _ => mkContent [] None;
                parse_lecture_list := fun _ => [];
                completion := fun cs => cs; today_year := 2026; today_month := 3;
                clock_check := 0; clock_save := 0; write_ok := true |} in
  match (get_available_semesters env logged_in).1 with
  | Semesters rows =>
      List.map (fun r => (sr_year r, sr_semester_name r)) (take 6 rows)
      = [(py "2026", py "Winter"); (py "2025", py "Winter");
         (py "2025", py "2nd Semester"); (py "2025", py "Summer");
         (py "2025", py "1st Semester"); (py "2024", py "Winter")]
  | Semesters401 => False
  end.
Proof. vm_compute. reflexivity. Qed.

Lemma current_semester_is_probed_witness :
  In (CallCourseList (py "2025") (py "20"))
    (list_courses (sample_env 100 105) discover_request).2.
Proof.
  destruct (current_semester_is_probed (sample_env 100 105) plain_request
              discover_request) as (_ & _ & _ & _ & H).
  destruct H as [_ Hin]; [reflexivity|reflexivity|reflexivity|].
  exact Hin.
Defined.


End Catalog.

(* ===================================================================== *)
(** ** Loading one course on demand ([app.py], [scraper.py]) *)
(* ===================================================================== *)

Module Refresh.

Import Cache.

(** The answers of [POST /api/course/refresh]; the successful one carries
    the keys of one element of [courses_data]. *)
Inductive RefreshAnswer : Type :=
| Refresh401
| Refresh400
| Refresh404
| Refreshed (course : CourseData).

(** [course.lectures = lectures] on the object [next(...)] found: the first
    cached course with that id. *)
Fixpoint set_lectures (id : pystr) (lectures : list LectureInfo)
    (cs : list CourseInfo) : list CourseInfo :=
  match cs with
  | [] => []
  | c :: rest =>
      if bool_decide (ci_course_id c = id)
      then {| ci_course_id := ci_course_id c; ci_course_name := ci_course_name c;
              ci_course_url := ci_course_url c; ci_year := ci_year c;
              ci_semester := ci_semester c; ci_professor := ci_professor c;
              ci_lectures := lectures |} :: rest
      else c :: set_lectures id lectures rest
  end.

(** [[l for l in lectures_cache if l.course_id != course_id]] *)
Definition other_courses (id : pystr) (ls : list LectureInfo) : list LectureInfo :=
  List.filter (fun l => negb (bool_decide (Reconcile.course_id l = id))) ls.

(** One element of ['lectures'] in the answer of [POST /api/course]. *)
Record LectureData : Type := mkLectureData {
  ld_id : pystr; ld_title : pystr; ld_week : pystr; ld_status : pystr;
  ld_activity_url : pystr; ld_course_name : pystr
}.

Definition lecture_data (l : LectureInfo) : LectureData :=
  {| ld_id := lecture_id l; ld_title := title l; ld_week := week l;
     ld_status := status l; ld_activity_url := activity_url l;
     ld_course_name := Reconcile.course_name l |}.

Inductive FetchAnswer : Type :=
| Fetch401
| Fetch400
| Fetched (lectures : list LectureData) (count : nat).

(** [POST /api/course], the legacy endpoint; the global
    [current_course_url], which nothing reads, is left out. *)
Definition fetch_course (env : Env) (course_url : option pystr) (st : AppState)
  : FetchAnswer * AppState * list Call :=
  match auth_session st with
  | None => (Fetch401, st, [])
  | Some _ =>
      match given course_url with
      | None => (Fetch400, st, [])
      | Some url =>
          let lectures := parse_lecture_list env url in
          (Fetched (List.map lecture_data lectures) (length (List.map lecture_data lectures)),
           {| auth_session := auth_session st; courses_cache := courses_cache st;
              lectures_cache := lectures; cache_file := cache_file st |},
           [CallLectureList url])
      end
  end.

Section Handler.

Variable isalnum : codepoint -> bool.
Variable lower : pystr -> pystr.

(** [POST /api/course/refresh], for a scraper whose two parsers answer
    (both catch their own exceptions). *)
Definition refresh_course (env : Env) (course_id : option pystr) (st : AppState)
  : RefreshAnswer * AppState * list Call :=
  match auth_session st with
  | None => (Refresh401, st, [])
  | Some _ =>
      match given course_id with
      | None => (Refresh400, st, [])
      | Some id =>
          match List.find (fun c => bool_decide (ci_course_id c = id))
                  (courses_cache st) with
          | None => (Refresh404, st, [])
          | Some course =>
              let content := parse_course_content env (ci_course_id course) in
              let lectures := parse_lecture_list env (ci_course_url course) in
              (Refreshed
                 {| cd_course_id := ci_course_id course;
                    cd_course_name := ci_course_name course;
                    cd_year := ci_year course; cd_semester := ci_semester course;
                    cd_professor := ci_professor course;
                    cd_url := ci_course_url course;
                    cd_loaded := true; cd_lecture_count := length lectures;
                    cd_sections := reconcile isalnum lower (ct_sections content)
                                     lectures |},
               {| auth_session := auth_session st;
                  courses_cache := set_lectures id lectures (courses_cache st);
                  lectures_cache := other_courses id (lectures_cache st) ++ lectures;
                  cache_file := cache_file st |},
               [CallCourseContent (ci_course_id course);
                CallLectureList (ci_course_url course)])
          end
      end
  end.



Lemma find_set_lectures (id : pystr) (ls : list LectureInfo) (cs : list CourseInfo)
    (c : CourseInfo) :
  List.find (fun c => bool_decide (ci_course_id c = id)) cs = Some c ->
  List.find (fun c => bool_decide (ci_course_id c = id)) (set_lectures id ls cs)
  = Some {| ci_course_id := ci_course_id c; ci_course_name := ci_course_name c;
            ci_course_url := ci_course_url c; ci_year := ci_year c;
            ci_semester := ci_semester c; ci_professor := ci_professor c;
            ci_lectures := ls |}.
Proof.
  induction cs as [|c0 cs IH]; simpl; [done|].
  destruct (bool_decide (ci_course_id c0 = id)) eqn:Hid; simpl.
  - intros [= <-]. by rewrite Hid.
  - intros H. rewrite Hid. by apply IH.
Qed.

Lemma set_lectures_twice (id : pystr) (ls : list LectureInfo) (cs : list CourseInfo) :
  set_lectures id ls (set_lectures id ls cs) = set_lectures id ls cs.
Proof.
  induction cs as [|c cs IH]; simpl; [done|].
  destruct (bool_decide (ci_course_id c = id)) eqn:Hid; simpl; rewrite Hid; [done|].
  by rewrite IH.
Qed.

Lemma other_courses_app (id : pystr) (a b : list LectureInfo) :
  other_courses id (a ++ b) = other_courses id a ++ other_courses id b.
Proof. unfold other_courses. apply List.filter_app. Qed.

Lemma other_courses_twice (id : pystr) (ls : list LectureInfo) :
  other_courses id (other_courses id ls) = other_courses id ls.
Proof.
  unfold other_courses. induction ls as [|l ls IH]; simpl; [done|].
  destruct (negb (bool_decide (Reconcile.course_id l = id))) eqn:H; simpl;
    rewrite ?H, IH; done.
Qed.

Lemma other_courses_none (id : pystr) (ls : list LectureInfo) :
  Forall (fun l => Reconcile.course_id l = id) ls -> other_courses id ls = [].
Proof.
  unfold other_courses. induction 1 as [|l ls Hl _ IH]; simpl; [done|].
  by rewrite bool_decide_eq_true_2.
Qed.

(** The shape of every answer of the handler. *)
Lemma refresh_course_cases (env : Env) (course_id : option pystr) (st : AppState) :
  let r := refresh_course env course_id st in
  (r.1.2 = st /\ r.2 = [] /\ forall d, r.1.1 <> Refreshed d)
  \/ exists id course,
       auth_session st <> None /\ given course_id = Some id
       /\ List.find (fun c => bool_decide (ci_course_id c = id)) (courses_cache st)
          = Some course
       /\ ci_course_id course = id
       /\ r = (Refreshed
                 {| cd_course_id := ci_course_id course;
                    cd_course_name := ci_course_name course;
                    cd_year := ci_year course; cd_semester := ci_semester course;
                    cd_professor := ci_professor course;
                    cd_url := ci_course_url course;
                    cd_loaded := true;
                    cd_lecture_count :=
                      length (parse_lecture_list env (ci_course_url course));
                    cd_sections :=
                      reconcile isalnum lower
                        (ct_sections (parse_course_content env (ci_course_id course)))
                        (parse_lecture_list env (ci_course_url course)) |},
               {| auth_session := auth_session st;
                  courses_cache :=
                    set_lectures id (parse_lecture_list env (ci_course_url course))
                      (courses_cache st);
                  lectures_cache :=
                    other_courses id (lectures_cache st)
                    ++ parse_lecture_list env (ci_course_url course);
                  cache_file := cache_file st |},
               [CallCourseContent (ci_course_id course);
                CallLectureList (ci_course_url course)]).
Proof.
  unfold refresh_course. simpl.
  destruct (auth_session st) as [ck|] eqn:Ha; [|by left].
  destruct (given course_id) as [id|]; [|by left].
  destruct (List.find _ (courses_cache st)) as [course|] eqn:Hf; [|by left].
  right. exists id, course. repeat split; try done.
  apply find_some in Hf as [_ Hid]. by apply bool_decide_eq_true in Hid.
Qed.


(** Refreshing a course twice is the same as refreshing it once, answer,
    state and scraper calls alike, provided the scraper answers the same
    and the lectures it returns carry the id the course is cached under.
    (Without that proviso the second refresh keeps the first one's lectures
    and appends its own.) *)
Theorem refresh_course_is_idempotent
    (env : Env) (course_id : option pystr) (st : AppState) :
  (forall c, In c (courses_cache st) ->
     Forall (fun l => Reconcile.course_id l = ci_course_id c)
       (parse_lecture_list env (ci_course_url c))) ->
  refresh_course env course_id (refresh_course env course_id st).1.2
  = refresh_course env course_id st.
Proof.
  intros Hids.
  destruct (refresh_course_cases env course_id st)
    as [(Hst & _)|(id & c & Ha & Hg & Hf & Hid & Hr)].
  { simpl in Hst. by rewrite Hst. }
  rewrite Hr. simpl. unfold refresh_course at 1. simpl.
  destruct (auth_session st) as [ck|]; [|done]. rewrite Hg.
  rewrite (find_set_lectures _ _ _ _ Hf). simpl.
  rewrite set_lectures_twice, other_courses_app, other_courses_twice.
  rewrite (other_courses_none id (parse_lecture_list env (ci_course_url c))).
  - by rewrite app_nil_r.
  - rewrite <- Hid. apply Hids. by apply find_some in Hf as [? _].
Qed.

(** What a refresh stored does not survive the next catalog call. A call
    of the catalog handler that answers with courses leaves the same state
    and gives the same answer whether or not courses were refreshed before
    it: both caches are overwritten, from the cache file or from the new
    parse, and the cache file never sees a refresh. *)
Theorem catalog_call_discards_refresh
    (env1 env2 : Env) (course_id : option pystr) (req : Request) (st : AppState) :
  let refreshed := (refresh_course env1 course_id st).1.2 in
  let r := fetch_all_courses isalnum lower env2 req st in
  let r' := fetch_all_courses isalnum lower env2 req refreshed in
  r'.1.1 = r.1.1 /\ r'.2 = r.2
  /\ (payload r.1.1 <> None -> r'.1.2 = r.1.2).
Proof.
  intros refreshed r r'. subst r r'.
  assert (Ha : auth_session refreshed = auth_session st
               /\ cache_file refreshed = cache_file st).
  { subst refreshed. unfold refresh_course.
    destruct (auth_session st) eqn:Ha; [|done].
    destruct (given course_id); [|done].
    by destruct (List.find _ (courses_cache st)). }
  destruct Ha as [Ha Hc].
  unfold fetch_all_courses, cache_get. rewrite Ha, Hc.
  destruct (auth_session st) as [ck|]; [|done].
  destruct (list_courses env2 req) as [[all sems] calls].
  destruct (q_force_refresh req).
  - destruct all as [|c cs]; [done|].
    destruct (parse_all isalnum lower env2 (c :: cs)) as [[[? ?] ?] ?].
    done.
  - destruct (cache_file st) as [cached|].
    + destruct (clock_check env2 - c_mtime cached <? TTL);
        [destruct (bool_decide (c_auth_cookies cached = ck))|].
      * done.
      * destruct all as [|c cs]; [done|].
        destruct (parse_all isalnum lower env2 (c :: cs)) as [[[? ?] ?] ?].
        done.
      * destruct all as [|c cs]; [done|].
        destruct (parse_all isalnum lower env2 (c :: cs)) as [[[? ?] ?] ?].
        done.
    + destruct all as [|c cs]; [done|].
      destruct (parse_all isalnum lower env2 (c :: cs)) as [[[? ?] ?] ?].
      done.
Qed.

End Handler.

(** *** With the scraper's own lecture parser *)

Section Scraped.

Variable search_id : pystr -> option pystr.
Variable strip_video_suffix : pystr -> pystr.

(** The activity instances of the page behind a URL ([None] when fetching
    it raised) and what [get_course_name] answers for it. *)
Variable pages : pystr -> option (list Scraper.Activity).
Variable names : pystr -> pystr.

Definition scraped (course_url : pystr) : list LectureInfo :=
  Scraper.parse_lecture_list search_id strip_video_suffix
    (pages course_url) (names course_url) course_url.

(** An environment whose lecture parser is [LearnUsScraper.parse_lecture_list]. *)
Definition scraping (env : Env) : Env :=
  {| parse_course_list := parse_course_list env;
     parse_course_content := parse_course_content env;
     parse_lecture_list := scraped;
     completion := completion env;
     today_year := today_year env; today_month := today_month env;
     clock_check := clock_check env; clock_save := clock_save env;
     write_ok := write_ok env |}.

Lemma find_by_id (ls : list LectureInfo) (l : LectureInfo) :
  NoDup (List.map lecture_id ls) -> In l ls ->
  List.find (fun x => bool_decide (lecture_id x = lecture_id l)) ls = Some l.
Proof.
  induction ls as [|x ls IH]; simpl; [done|].
  intros Hnd Hin. apply NoDup_cons in Hnd as [Hx Hnd].
  destruct Hin as [->|Hin].
  - by rewrite bool_decide_eq_true_2.
  - rewrite bool_decide_eq_false_2; [by apply IH|].
    intros Heq. apply Hx. rewrite Heq. apply list_elem_of_In, in_map, Hin.
Qed.

Lemma find_by_id_none (ls : list LectureInfo) (id : pystr) :
  List.find (fun x => bool_decide (lecture_id x = id)) ls = None
  <-> ~ In id (List.map lecture_id ls).
Proof.
  induction ls as [|x ls IH]; simpl; [tauto|].
  destruct (bool_decide (lecture_id x = id)) eqn:Hx.
  - apply bool_decide_eq_true in Hx. split; [done|]. intros H. exfalso. auto.
  - apply bool_decide_eq_false in Hx. rewrite IH. tauto.
Qed.

(** The lectures the legacy endpoint answers with are the ones the
    download worker will find. After [POST /api/course] with the scraper's
    lecture parser the lecture cache is replaced by the parsed lectures,
    whose ids are pairwise distinct; so for a worker that reads this cache,
    looking up the id of an answered lecture finds that very lecture, and
    an iteration logs 'Lecture ... not found' exactly for the ids that are
    not in the answer. *)
Theorem fetched_lectures_resolve
    (env : Env) (course_url : option pystr) (st st' : AppState)
    (lectures : list LectureData) (n : nat) (calls : list Call)
    (co : Jobs.Collab) (idx : nat) (id : pystr) :
  fetch_course (scraping env) course_url st = (Fetched lectures n, st', calls) ->
  Jobs.lectures_cache co = lectures_cache st' ->
  n = length lectures
  /\ List.map lecture_data (lectures_cache st') = lectures
  /\ NoDup (List.map ld_id lectures)
  /\ (forall l, In l (lectures_cache st') ->
        List.find (fun x => bool_decide (lecture_id x = lecture_id l))
          (Jobs.lectures_cache co) = Some l)
  /\ (In (Jobs.Log (Jobs.MsgNotFound id)) (Jobs.item_script co idx id)
      <-> ~ In id (List.map ld_id lectures)).
Proof.
  unfold fetch_course. destruct (auth_session st); [|done].
  destruct (given course_url) as [url|]; [|done].
  intros [= <- <- <- _] Hco. simpl in *.
  fold (scraped url) in *. set (ls := scraped url) in *.
  assert (Hnd : NoDup (List.map lecture_id ls))
    by apply Scraper.parse_lecture_list_nodup.
  assert (Hmap : List.map ld_id (List.map lecture_data ls) = List.map lecture_id ls)
    by (by rewrite List.map_map).
  split; [done|]. split; [done|]. split; [by rewrite Hmap|]. split.
  - intros l Hl. rewrite Hco. by apply find_by_id.
  - rewrite Hmap, <- find_by_id_none. unfold Jobs.item_script. rewrite Hco.
    destruct (List.find _ ls) as [lecture|]; simpl.
    + split; [|done]. intros [H|H]; [done|].
      destruct H as [H|H]; [done|].
      destruct (Jobs.truthy (Jobs.extract_video_url co lecture)); simpl in H;
        [|by destruct H as [H|[H|H]]].
      destruct (Jobs.output_path_error co lecture); simpl in H;
        [by destruct H as [H|[H|H]]|].
      destruct H as [H|H]; [done|].
      destruct (Jobs.download_video co p lecture); simpl in H;
        repeat (destruct H as [H|H]; [done|]); done.
    + split; [done|]. intros _. right. by left.
Qed.

Section Reconciled.

Variable isalnum : codepoint -> bool.
Variable lower : pystr -> pystr.


End Reconciled.

End Scraped.

(** *** Worked inputs *)

(** A course page with two video activities and a forum link. *)
Definition sample_page : list Scraper.Activity :=
  [ {| Scraper.link := Some {| Scraper.href := py "https://ys.learnus.org/mod/vod/view.php?id=11";
                               Scraper.onclick := [] |};
       Scraper.img_src := None;
       Scraper.instancename := Some (py "Intro");
       Scraper.section := Some {| Scraper.name_tag := Some (py "Week 1");
                                  Scraper.aria_label := None |} |};
    {| Scraper.link := Some {| Scraper.href := py "https://ys.learnus.org/mod/forum/view.php?id=12";
                               Scraper.onclick := [] |};
       Scraper.img_src := None;
       Scraper.instancename := Some (py "Q and A");
       Scraper.section := None |};
    {| Scraper.link := Some {| Scraper.href := py "/mod/vod/viewer.php?id=13";
                               Scraper.onclick := [] |};
       Scraper.img_src := None;
       Scraper.instancename := Some (py "Sorting");
       Scraper.section := Some {| Scraper.name_tag := None;
                                  Scraper.aria_label := Some (py "Week 2") |} |} ].

(** [re.search(r'id=(\d+)', s)] on the URLs of the worked inputs. *)
Definition sample_search_id (s : pystr) : option pystr :=
  if contains (py "id=7") s then Some (py "7") else None.

Definition sample_scraping (env : Env) : Env :=
  scraping sample_search_id (fun t => t) (fun _ => Some sample_page)
    (fun _ => py "Course") env.

(** The state after a catalog call that listed the sample course. *)
Definition with_course : AppState :=
  {| auth_session := Some sample_cookies; courses_cache := [sample_course];
     lectures_cache := []; cache_file := None |}.

Definition refresh_ascii : Env -> option pystr -> AppState
                           -> RefreshAnswer * AppState * list Call :=
  refresh_course ascii_hangul_isalnum ascii_lower.

Example refresh_course_samples :
  List.map lecture_id
    (lectures_cache (refresh_ascii (sample_scraping (sample_env 100 105))
                       (Some (py "7")) with_course).1.2)
  = [py "7_1"; py "7_2"]
  /\ List.map activity_url
       (lectures_cache (refresh_ascii (sample_scraping (sample_env 100 105))
                          (Some (py "7")) with_course).1.2)
     = [py "https://ys.learnus.org/mod/vod/viewer.php?id=11";
        py "https://ys.learnus.org/mod/vod/viewer.php?id=13"]
  /\ (refresh_ascii (sample_env 100 105) (Some (py "8")) with_course).1.1 = Refresh404
  /\ (refresh_ascii (sample_env 100 105) (Some []) with_course).1.1 = Refresh400
  /\ (refresh_ascii (sample_env 100 105) (Some (py "7")) logged_in).1.1 = Refresh404.
Proof. vm_compute. repeat split. Qed.

(** A course cached under the id 9 whose lectures carry the course id 7:
    refreshed twice, it has its lectures twice in the cache. *)
Example refresh_accumulates_without_matching_id :
  let env := {| parse_course_list := fun _ _ => [];
                parse_course_content := fun _ => mkContent [] None;
                parse_lecture_list := fun _ => scenario_lectures;
                completion := fun cs => cs; today_year := 2025; today_month := 11;
                clock_check := 0; clock_save := 0; write_ok := true |} in
  let course := {| ci_course_id := py "9"; ci_course_name := py "C";
                   ci_course_url := py "u"; ci_year := []; ci_semester := [];
                   ci_professor := []; ci_lectures := [] |} in
  let st := {| auth_session := Some sample_cookies; courses_cache := [course];
               lectures_cache := []; cache_file := None |} in
  let once := (refresh_ascii env (Some (py "9")) st).1.2 in
  let twice := (refresh_ascii env (Some (py "9")) once).1.2 in
  length (lectures_cache once) = 3%nat /\ length (lectures_cache twice) = 6%nat.
Proof. vm_compute. split; reflexivity. Qed.

Lemma refresh_course_is_idempotent_witness :
  let env := sample_scraping (sample_env 100 105) in
  let once := refresh_ascii env (Some (py "7")) with_course in
  refresh_ascii env (Some (py "7")) once.1.2 = once
  /\ length (lectures_cache once.1.2) = 2%nat.
Proof.
  intros env once. split; [|vm_compute; reflexivity].
  apply (refresh_course_is_idempotent ascii_hangul_isalnum ascii_lower).
  intros c [<-|[]]. vm_compute. repeat constructor.
Defined.

Lemma catalog_call_discards_refresh_witness :
  let refreshed := (refresh_ascii (sample_scraping (sample_env 100 105))
                      (Some (py "7")) with_course).1.2 in
  lectures_cache refreshed <> lectures_cache with_course
  /\ (fetch_ascii (sample_env 200 205) plain_request refreshed).1.2
     = (fetch_ascii (sample_env 200 205) plain_request with_course).1.2.
Proof.
  intros refreshed. split; [vm_compute; discriminate|].
  apply (catalog_call_discards_refresh ascii_hangul_isalnum ascii_lower
           (sample_scraping (sample_env 100 105)) (sample_env 200 205)
           (Some (py "7")) plain_request with_course).
  vm_compute. discriminate.
Defined.


Lemma fetched_lectures_resolve_witness :
  let r := fetch_course (sample_scraping (sample_env 100 105))
             (Some (py "https://ys.learnus.org/course/view.php?id=7")) logged_in in
  let co := {| Jobs.lectures_cache := lectures_cache r.1.2;
               Jobs.setup_error := None;
               Jobs.extract_video_url := fun _ => None;
               Jobs.output_path_error := fun _ => None;
               Jobs.download_video := fun _ _ => true;
               Jobs.percent := fun k n => (k * 100 / n)%nat |} in
  ~ In (Jobs.Log (Jobs.MsgNotFound (py "7_2"))) (Jobs.item_script co 0 (py "7_2"))
  /\ In (Jobs.Log (Jobs.MsgNotFound (py "7_3"))) (Jobs.item_script co 0 (py "7_3")).
Proof.
  intros r co.
  destruct r as [[a st'] calls] eqn:Hr. destruct a as [| |ls n];
    try (vm_compute in Hr; discriminate Hr).
  assert (Hls : List.map ld_id ls = [py "7_1"; py "7_2"]).
  { vm_compute in Hr. by injection Hr as <- _ _ _. }
  split.
  - destruct (fetched_lectures_resolve sample_search_id (fun t => t)
                (fun _ => Some sample_page) (fun _ => py "Course")
                (sample_env 100 105) _ _ _ _ _ _ co 0%nat (py "7_2") Hr eq_refl)
      as (_ & _ & _ & _ & Hiff).
    intros Hin. apply Hiff in Hin. apply Hin. rewrite Hls. right. by left.
  - destruct (fetched_lectures_resolve sample_search_id (fun t => t)
                (fun _ => Some sample_page) (fun _ => py "Course")
                (sample_env 100 105) _ _ _ _ _ _ co 0%nat (py "7_3") Hr eq_refl)
      as (_ & _ & _ & _ & Hiff).
    apply Hiff. rewrite Hls. vm_compute. intros [H|[H|[]]]; discriminate H.
Defined.

End Refresh.

(* ===================================================================== *)
(** ** LLM settings ([app.py]) *)
(* ===================================================================== *)

Module Settings.

(** The dict [llm_settings]. The two API keys are always strings (the
    update stores [value or '']); the other values are what the last
    update stored, a string or JSON null. *)
Record LlmSettings : Type := mkLlm {
  provider : option pystr;
  openai_api_key : pystr;
  openai_model : option pystr;
  google_api_key : pystr;
  google_model : option pystr;
  ollama_url : option pystr;
  ollama_model : option pystr
}.

(** ['settings'] in the answer of [GET /api/llm-settings]. *)
Record SafeSettings : Type := mkSafe {
  a_provider : option pystr;
  a_openai_model : option pystr;
  a_google_model : option pystr;
  a_ollama_url : option pystr;
  a_ollama_model : option pystr;
  has_openai_key : bool;
  has_google_key : bool
}.

(** [bool(s)] for a string. *)
Definition nonempty (s : pystr) : bool :=
  match s with [] => false | _ :: _ => true end.

(** [get_llm_settings] *)
Definition get_llm_settings (s : LlmSettings) : SafeSettings :=
  {| a_provider := provider s; a_openai_model := openai_model s;
     a_google_model := google_model s; a_ollama_url := ollama_url s;
     a_ollama_model := ollama_model s;
     has_openai_key := nonempty (openai_api_key s);
     has_google_key := nonempty (google_api_key s) |}.

(** A JSON body whose values are strings or null; [os.environ]. *)
Abbreviation Body := (gmap (list Z) (option (list Z))).
Abbreviation Environ := (gmap (list Z) (list Z)).

(** [if k in data: settings[k] = data[k]] *)
Definition pick (data : Body) (k : string) (old : option pystr) : option pystr :=
  match data !! py k with
  | Some v => v
  | None => old
  end.

(** [if k in data: settings[k] = data[k] or ''] *)
Definition pick_key (data : Body) (k : string) (old : pystr) : pystr :=
  match data !! py k with
  | Some v => default [] v
  | None => old
  end.

(** The seven conditional assignments that open [set_llm_settings]. *)
Definition updated (data : Body) (s : LlmSettings) : LlmSettings :=
  {| provider := pick data "provider" (provider s);
     openai_api_key := pick_key data "openai_api_key" (openai_api_key s);
     openai_model := pick data "openai_model" (openai_model s);
     google_api_key := pick_key data "google_api_key" (google_api_key s);
     google_model := pick data "google_model" (google_model s);
     ollama_url := pick data "ollama_url" (ollama_url s);
     ollama_model := pick data "ollama_model" (ollama_model s) |}.

(** The assignments to [os.environ] that follow, in source order; the two
    keys are exported only when they are not empty. *)
Definition exports (s : LlmSettings) : list (pystr * option pystr) :=
  (if nonempty (openai_api_key s)
   then [(py "OPENAI_API_KEY", Some (openai_api_key s))] else [])
  ++ (if nonempty (google_api_key s)
      then [(py "GOOGLE_API_KEY", Some (google_api_key s))] else [])
  ++ [(py "LLM_PROVIDER", provider s); (py "OPENAI_MODEL", openai_model s);
      (py "GOOGLE_MODEL", google_model s); (py "OLLAMA_URL", ollama_url s);
      (py "OLLAMA_MODEL", ollama_model s)].

Section Handler.

(** The strings [os.environ] accepts as a value (no NUL, encodable). *)
Variable storable : pystr -> bool.

(** [os.environ[k] = v], one after the other, until one raises: a value
    that is not a string, or a string the environment refuses. *)
Fixpoint setenv_all (assignments : list (pystr * option pystr)) (env : Environ)
  : Environ * bool :=
  match assignments with
  | [] => (env, true)
  | (k, Some v) :: rest =>
      if storable v then setenv_all rest (<[k := v]> env) else (env, false)
  | (k, None) :: rest => (env, false)
  end.

(** [POST /api/llm-settings]: [true] for the 200 answer, [false] for 500.
    A request without a JSON body raises at the first test. *)
Definition set_llm_settings (data : option Body) (s : LlmSettings) (env : Environ)
  : bool * LlmSettings * Environ :=
  match data with
  | None => (false, s, env)
  | Some data =>
      let s' := updated data s in
      let '(env', ok) := setenv_all (exports s') env in
      (ok, s', env')
  end.





End Handler.

(** *** Worked inputs *)

Definition no_nul (v : pystr) : bool := negb (existsb (Z.eqb 0) v).

Definition defaults : LlmSettings :=
  {| provider := Some (py "openai"); openai_api_key := py "sk-old";
     openai_model := Some (py "gpt-4"); google_api_key := [];
     google_model := Some (py "gemini-pro");
     ollama_url := Some (py "http://localhost:11434");
     ollama_model := Some (py "llama2") |}.

(** The key is cleared and the provider is null: the answer is 500, the key
    is gone from the settings all the same, and the environment still holds
    the old key. *)
Example refused_update_sample :
  let body : Body := {[ py "openai_api_key" := Some []; py "provider" := None ]} in
  let env : Environ := {[ py "OPENAI_API_KEY" := py "sk-old" ]} in
  let r := set_llm_settings no_nul (Some body) defaults env in
  r.1.1 = false
  /\ has_openai_key (get_llm_settings r.1.2) = false
  /\ r.2 !! py "OPENAI_API_KEY" = Some (py "sk-old").
Proof. vm_compute. repeat split. Qed.


End Settings.
